(** * Stm_logger: the stream classification and recovery engine of [main.py]

    A shallow embedding of [is_numeric], [is_csv_data_line], [clean_csv_line]
    and of the body of the ingestion loop of [main], with the Python builtins
    they call ([str.strip], [str.split], [str.lower], [in], [re.sub] with a
    character class, [float], and the [int * float] product of line 52).

    Text is a list of Unicode code points.  The two Unicode tables the
    builtins consult beyond ASCII (full lower-casing and the decimal value of
    a digit) are fields of [UnicodeDB] and stay abstract: every theorem holds
    for every table. *)

From Stdlib Require Import Ascii String.
From Stdlib Require Import List Bool Arith NArith ZArith QArith Lia.
Import ListNotations.
Local Close Scope Q_scope.
Local Open Scope bool_scope.

(** ** Text *)

Definition codepoint := N.
Definition pystr := list codepoint.

(** An ASCII literal as Python text. *)
Definition str (s : string) : pystr := map N_of_ascii (list_ascii_of_string s).

Fixpoint pystr_eqb (a b : pystr) : bool :=
  match a, b with
  | [], [] => true
  | x :: a', y :: b' => (x =? y)%N && pystr_eqb a' b'
  | _, _ => false
  end.

Module Py.

(** [str.isspace] for one character (CPython's [_PyUnicode_IsWhitespace]). *)
Definition isspace (c : codepoint) : bool :=
  ((9 <=? c) && (c <=? 13) || (28 <=? c) && (c <=? 32)
   || (c =? 133) || (c =? 160) || (c =? 5760)
   || (8192 <=? c) && (c <=? 8202)
   || (c =? 8232) || (c =? 8233) || (c =? 8239) || (c =? 8287)
   || (c =? 12288))%N.

(** [s.lstrip()], [s.rstrip()] and [s.strip()] with no argument. *)
Fixpoint lstrip (s : pystr) : pystr :=
  match s with
  | c :: s' => if isspace c then lstrip s' else s
  | [] => []
  end.

Fixpoint rstrip (s : pystr) : pystr :=
  match s with
  | [] => []
  | c :: s' =>
      match rstrip s' with
      | [] => if isspace c then [] else [c]
      | r => c :: r
      end
  end.

Definition strip (s : pystr) : pystr := rstrip (lstrip s).

(** [s.split(sep)] for a one-character separator: n separators give n+1
    parts, and the empty text gives one empty part. *)
Fixpoint split (sep : codepoint) (s : pystr) : list pystr :=
  match s with
  | [] => [[]]
  | c :: s' =>
      if (c =? sep)%N then [] :: split sep s'
      else match split sep s' with
           | p :: ps => (c :: p) :: ps
           | [] => [[c]]
           end
  end.

(** [s.startswith(p)] and [p in s]. *)
Fixpoint startswith (p s : pystr) : bool :=
  match p, s with
  | [], _ => true
  | _ :: _, [] => false
  | a :: p', b :: s' => (a =? b)%N && startswith p' s'
  end.

Fixpoint contains (p s : pystr) : bool :=
  match s with
  | [] => startswith p []
  | _ :: s' => startswith p s || contains p s'
  end.

(** [re.sub(r'[\x00-\x1f\x7f-\x9f]', '', s)]: every character of the class
    is deleted. *)
Definition is_control (c : codepoint) : bool :=
  ((c <=? 31) || (127 <=? c) && (c <=? 159))%N.

Definition sub_control (s : pystr) : pystr :=
  filter (fun c => negb (is_control c)) s.

(** The Unicode data the builtins read for non-ASCII text. *)
Record UnicodeDB := {
  (** [str.lower] of a text that has a non-ASCII character *)
  unicode_lower : pystr -> pystr;
  (** [Py_UNICODE_TODECIMAL]: the value of a decimal digit, if it is one *)
  unicode_decimal : codepoint -> option N
}.

(** A table with no cased letter and no digit beyond ASCII. *)
Definition ascii_only_db : UnicodeDB :=
  {| unicode_lower := fun s => s; unicode_decimal := fun _ => None |}.

Definition is_ascii (c : codepoint) : bool := (c <? 128)%N.

Definition ascii_lower (c : codepoint) : codepoint :=
  if ((65 <=? c) && (c <=? 90))%N then (c + 32)%N else c.

(** [s.lower()]: CPython lowers an ASCII text byte by byte and hands any
    other text to the Unicode case operation. *)
Definition lower (db : UnicodeDB) (s : pystr) : pystr :=
  if forallb is_ascii s then map ascii_lower s else unicode_lower db s.

(** *** [float(s)] on text

    [PyFloat_FromString]: decimal digits and spaces beyond ASCII are mapped
    to ASCII, C white space is stripped at both ends, underscores are
    accepted between digits only, and what remains must be a whole decimal
    literal of at most 10^9 digits, or [inf], [infinity] or [nan] in any
    case, after an optional sign.  [float_parses] tells whether
    [float(s)] returns; otherwise it raises [ValueError]. *)

(** [_PyUnicode_TransformDecimalAndSpaceToASCII]; the output stops at the
    first character that is neither, which is replaced by [?]. *)
Fixpoint transform_decimal_and_space (db : UnicodeDB) (s : pystr) : pystr :=
  match s with
  | [] => []
  | ch :: s' =>
      if (ch <? 127)%N then ch :: transform_decimal_and_space db s'
      else if isspace ch then 32%N :: transform_decimal_and_space db s'
      else match unicode_decimal db ch with
           | Some d => (48 + d)%N :: transform_decimal_and_space db s'
           | None => [63%N]
           end
  end.

Definition to_ascii (db : UnicodeDB) (s : pystr) : pystr :=
  if forallb is_ascii s then s else transform_decimal_and_space db s.

(** [Py_ISSPACE] and [Py_ISDIGIT] *)
Definition c_isspace (c : codepoint) : bool :=
  ((9 <=? c) && (c <=? 13) || (c =? 32))%N.

Definition c_isdigit (c : codepoint) : bool :=
  ((48 <=? c) && (c <=? 57))%N.

Fixpoint c_lstrip (s : pystr) : pystr :=
  match s with
  | c :: s' => if c_isspace c then c_lstrip s' else s
  | [] => []
  end.

Fixpoint c_rstrip (s : pystr) : pystr :=
  match s with
  | [] => []
  | c :: s' =>
      match c_rstrip s' with
      | [] => if c_isspace c then [] else [c]
      | r => c :: r
      end
  end.

(** [_Py_string_to_number_with_underscores]: [None] when an underscore is
    not between two digits, else the text without its underscores.  [prev]
    is the previous character (0 at the start). *)
Fixpoint remove_underscores (prev : codepoint) (s : pystr) : option pystr :=
  match s with
  | [] => if (prev =? 95)%N then None else Some []
  | c :: s' =>
      if (c =? 95)%N then
        if c_isdigit prev then remove_underscores c s' else None
      else if (prev =? 95)%N && negb (c_isdigit c) then None
      else option_map (cons c) (remove_underscores c s')
  end.

Definition drop_sign (s : pystr) : pystr :=
  match s with
  | c :: s' => if ((c =? 43) || (c =? 45))%N then s' else s
  | [] => []
  end.

Fixpoint span_digits (s : pystr) : pystr * pystr :=
  match s with
  | c :: s' =>
      if c_isdigit c then let (d, r) := span_digits s' in (c :: d, r)
      else ([], s)
  | [] => ([], [])
  end.

(** The exponent part, or nothing, up to the end of the text. *)
Definition exponent_to_end (s : pystr) : bool :=
  match s with
  | [] => true
  | c :: s' =>
      ((c =? 101) || (c =? 69))%N
      && match span_digits (drop_sign s') with
         | (_ :: _, []) => true
         | _ => false
         end
  end.

(** [MAX_DIGITS] of CPython's [dtoa.c]: the parser refuses a literal with
    more significant digits, or more digits after the point. *)
Definition max_digits : N := 1000000000.

Fixpoint skip_zeros (s : pystr) : pystr :=
  match s with
  | c :: s' => if (c =? 48)%N then skip_zeros s' else s
  | [] => []
  end.

(** The digits that count: those of the whole part after its leading
    zeros and all of the fraction; when the whole part has none, those of
    the fraction after its leading zeros. *)
Definition significant_digits (int_part frac_part : pystr) : nat :=
  match skip_zeros int_part with
  | [] => length (skip_zeros frac_part)
  | kept => length kept + length frac_part
  end.

(** [digits [. digits] [exponent]] or [. digits [exponent]], within the
    limit on the number of digits. *)
Definition decimal_literal (s : pystr) : bool :=
  let (int_part, r1) := span_digits s in
  let (frac_part, r2) :=
    match r1 with
    | c :: r => if (c =? 46)%N then span_digits r else ([], r1)
    | [] => ([], r1)
    end in
  match int_part, frac_part with
  | [], [] => false
  | _, _ =>
      (N.of_nat (significant_digits int_part frac_part) <=? max_digits)%N
      && (N.of_nat (length frac_part) <=? max_digits)%N
      && exponent_to_end r2
  end.

Definition inf_or_nan (s : pystr) : bool :=
  let l := map ascii_lower s in
  pystr_eqb l (str "inf") || pystr_eqb l (str "infinity")
  || pystr_eqb l (str "nan").

Definition float_parses (db : UnicodeDB) (s : pystr) : bool :=
  match c_rstrip (c_lstrip (to_ascii db s)) with
  | [] => false
  | t =>
      match (if existsb (N.eqb 95) t then remove_underscores 0%N t else Some t)
      with
      | Some u => let body := drop_sign u in
                  decimal_literal body || inf_or_nan body
      | None => false
      end
  end.

(** *** [n * 0.8] and [k < x] on an [int] and a [float]

    A non-negative double is [mant * 2^expo] with [mant < 2^53].  The
    product is rounded to nearest, ties to even, as IEEE 754 does; the
    comparison of an [int] with a [float] is exact in Python. *)

Record float := { mant : Z; expo : Z }.

(** Round [m * 2^e] ([0 <= m]) to 53 significant bits. *)
Definition round53 (m e : Z) : float :=
  if (m <? 2 ^ 53)%Z then {| mant := m; expo := e |}
  else
    let s := (Z.log2 m - 52)%Z in
    let q := Z.shiftr m s in
    let r := (m - Z.shiftl q s)%Z in
    let half := Z.shiftl 1 (s - 1) in
    let up := (half <? r)%Z || (half =? r)%Z && Z.odd q in
    {| mant := if up then (q + 1)%Z else q; expo := (e + s)%Z |}.

(** The literal [0.8] is the double [0x3FE999999999999A]. *)
Definition float_0_8 : float := {| mant := 7205759403792794; expo := -53 |}.

Definition float_of_int (n : Z) : float := round53 n 0.

Definition float_mul (a b : float) : float :=
  round53 (mant a * mant b) (expo a + expo b).

(** [k < x] *)
Definition int_lt_float (k : Z) (x : float) : bool :=
  if (0 <=? expo x)%Z then (k <? mant x * 2 ^ expo x)%Z
  else (k * 2 ^ (- expo x) <? mant x)%Z.

End Py.

(** ** Module constants of [main.py] *)

Definition EXPECTED_HEADER : list pystr :=
  map str
    ["AccX"; "AccY"; "AccZ"; "GyroX"; "GyroY"; "GyroZ"; "Roll"; "Pitch";
     "YawIMU"; "MagX"; "MagY"; "MagZ"; "Lat"; "Lon"; "Alt"; "Speed";
     "Course"; "Sats"; "PDOP"; "HDOP"; "VDOP"]%string.

(** The keyword list written inline at lines 39-40. *)
Definition noise_keywords : list pystr :=
  map str
    ["hello"; "error"; "system"; "baud"; "find"; "sensor"; "connection";
     "boot"; "rudder"; "propeller"; "zero"; "unknown"; "command"]%string.

(** The literal of the header tests at lines 145 and 152. *)
Definition header_marker : pystr := str "AccX,AccY,AccZ".

Definition comma : codepoint := 44%N.

(** The literal of the summary test at line 167. *)
Definition summary_interval : Z := 15.

Section Engine.

Variable db : Py.UnicodeDB.

(** ** [is_numeric] (lines 22-28) *)

Definition is_numeric (s : pystr) : bool := Py.float_parses db s.

(** ** [is_csv_data_line] (lines 30-55) *)

(** Line 35 and line 62: [re.sub(r'[\x00-\x1f\x7f-\x9f]', '', line.strip())]. *)
Definition clean (line : pystr) : pystr := Py.sub_control (Py.strip line).

(** Line 38: [any(keyword in cleaned_line.lower() for keyword in [...])]. *)
Definition has_noise_keyword (cleaned_line : pystr) : bool :=
  existsb (fun keyword => Py.contains keyword (Py.lower db cleaned_line))
          noise_keywords.

(** Line 51: [sum(1 for part in parts if is_numeric(part.strip()))]. *)
Definition numeric_count (parts : list pystr) : nat :=
  length (filter (fun part => is_numeric (Py.strip part)) parts).

Definition is_csv_data_line (line : pystr) : bool :=
  let cleaned_line := clean line in
  if has_noise_keyword cleaned_line then false
  else
    let parts := Py.split comma cleaned_line in
    if (length parts <? 15) || (25 <? length parts) then false
    else if Py.int_lt_float
              (Z.of_nat (numeric_count parts))
              (Py.float_mul (Py.float_of_int (Z.of_nat (length parts)))
                            Py.float_0_8)
    then false
    else true.

(** ** [clean_csv_line] (lines 57-82) *)

(** Line 65: [[part.strip() for part in cleaned.split(',')]]. *)
Definition csv_parts (line : pystr) : list pystr :=
  map Py.strip (Py.split comma (clean line)).

(** Lines 72-77: the inner loop appends while the parts are numeric and
    breaks at the first that is not. *)
Fixpoint numeric_run (candidate : list pystr) : list pystr :=
  match candidate with
  | part :: rest => if is_numeric part then part :: numeric_run rest else []
  | [] => []
  end.

(** Lines 69-80: the body of the outer loop at offset [i]; [Some] is the
    [return], [None] falls through to the next offset. *)
Definition try_offset (parts : list pystr) (i : nat) : option (list pystr) :=
  let candidate_parts := skipn i parts in
  if length EXPECTED_HEADER <=? length candidate_parts then
    let numeric_parts :=
      numeric_run (firstn (length EXPECTED_HEADER) candidate_parts) in
    if length EXPECTED_HEADER <=? length numeric_parts
    then Some (firstn (length EXPECTED_HEADER) numeric_parts)
    else None
  else None.

(** [for i in offsets: ... return] *)
Fixpoint first_return (body : nat -> option (list pystr)) (offsets : list nat)
  : option (list pystr) :=
  match offsets with
  | [] => None
  | i :: more =>
      match body i with
      | Some r => Some r
      | None => first_return body more
      end
  end.

Definition clean_csv_line (line : pystr) : option (list pystr) :=
  let parts := csv_parts line in
  first_return (try_offset parts) (seq 0 (length parts)).

(** ** The ingestion loop of [main] (lines 136-175) *)

(** [header_written] is a local of [main]; [csv_message_count] and
    [last_summary_time] are the module globals.  Clock readings are the
    values of a synthetic clock, whole time units. *)
Record Session := {
  header_written : bool;
  csv_message_count : Z;
  last_summary_time : Z
}.

(** What one read brings: the decoded text of [ser.readline()], and what
    [datetime.now().isoformat()] and [time.time()] give if they are asked
    while this line is handled. *)
Record Reading := {
  raw : pystr;
  now_iso : pystr;
  current_time : Z
}.

(** The [print]s of the loop. *)
Inductive Console :=
| HeaderDetected
| Summary (count : Z)
| ParseError (line : pystr)
| Stm32 (line : pystr).

(** The effect of one iteration: rows handed to [writer.writerow], in
    order, and lines printed. *)
Record Effect := {
  rows : list (list pystr);
  console : list Console
}.

Definition silent : Effect := {| rows := []; console := [] |}.

Definition header_row : list pystr := str "Timestamp" :: EXPECTED_HEADER.

(** Lines 138-175, one line read. *)
Definition main_step (st : Session) (r : Reading) : Session * Effect :=
  let line := Py.strip (raw r) in
  match line with
  | [] => (st, silent)
  | _ :: _ =>
    if Py.contains header_marker line && negb (header_written st) then
      ({| header_written := true;
          csv_message_count := csv_message_count st;
          last_summary_time := last_summary_time st |},
       {| rows := [header_row]; console := [HeaderDetected] |})
    else if Py.contains header_marker line && header_written st then
      (st, silent)
    else if is_csv_data_line line then
      match clean_csv_line line with
      | Some ((_ :: _) as cleaned_data) =>
          (* line 158: a non-empty list is true *)
          let row := now_iso r :: cleaned_data in
          let count := (csv_message_count st + 1)%Z in
          if (summary_interval <=? current_time r - last_summary_time st)%Z
          then
            ({| header_written := header_written st;
                csv_message_count := 0;
                last_summary_time := current_time r |},
             {| rows := [row]; console := [Summary count] |})
          else
            ({| header_written := header_written st;
                csv_message_count := count;
                last_summary_time := last_summary_time st |},
             {| rows := [row]; console := [] |})
      | _ =>
          (* [None] (and the empty list) is false *)
          (st, {| rows := []; console := [ParseError line] |})
      end
    else (st, {| rows := []; console := [Stm32 line] |})
  end.

(** The loop over the lines read, with everything written and printed so
    far.  A pass of [while True] that finds nothing waiting (line 137) does
    nothing; the writes and prints are taken not to raise, and the
    interrupt that ends the loop comes after the last line of [input]. *)
Fixpoint main_loop (st : Session) (out : Effect) (input : list Reading)
  : Session * Effect :=
  match input with
  | [] => (st, out)
  | r :: more =>
      let (st', e) := main_step st r in
      main_loop st'
        {| rows := rows out ++ rows e; console := console out ++ console e |}
        more
  end.

(** [main] starts with [header_written = False], a zero count (line 19) and
    the clock reading [t0] of line 20. *)
Definition initial (t0 : Z) : Session :=
  {| header_written := false;
     csv_message_count := 0;
     last_summary_time := t0 |}.

Definition run (t0 : Z) (input : list Reading) : Session * Effect :=
  main_loop (initial t0) silent input.

(** The number of header rows among the rows written. *)
Definition header_rows (written : list (list pystr)) : nat :=
  count_occ (list_eq_dec (list_eq_dec N.eq_dec)) written header_row.

(** Line 145/152: the header test on the stripped line. *)
Definition has_marker (r : Reading) : bool :=
  Py.contains header_marker (Py.strip (raw r)).

(** ** The classifier contract of the specification

    The four outcomes, read off the order of the tests in [main]
    (line 145/152, then line 156) and in [is_csv_data_line] (line 38 before
    lines 47 and 52).  [line] is the stripped line of line 138. *)
Inductive LineClass := Header | Noise | Candidate | Unrecognized.

Definition classify (line : pystr) : LineClass :=
  if Py.contains header_marker line then Header
  else if has_noise_keyword (clean line) then Noise
  else if is_csv_data_line line then Candidate
  else Unrecognized.

(** ** The extractor as the specification words it

    Walk forward from offset [i], adding each part while it parses as
    numeric, stopping at the first non-numeric part or once [n] values are
    collected. *)
Fixpoint greedy_run (n : nat) (from_i : list pystr) : list pystr :=
  match n, from_i with
  | S n', part :: rest =>
      if is_numeric part then part :: greedy_run n' rest else []
  | _, _ => []
  end.

(** The run starting at [i] reaches [N] values. *)
Definition run_reaches (parts : list pystr) (i : nat) : bool :=
  length (greedy_run (length EXPECTED_HEADER) (skipn i parts))
  =? length EXPECTED_HEADER.

(** The fraction of numeric parts of line 52, as a rational. *)
Definition numeric_fraction (parts : list pystr) : Q :=
  Z.of_nat (numeric_count parts) # Pos.of_nat (length parts).

End Engine.

(** ** [command_sender] (lines 84-110) *)

Module Utf8.

(** [s.encode('utf-8')]: one to four bytes for a code point; a surrogate
    (U+D800 to U+DFFF) raises [UnicodeEncodeError], which is [None] here,
    and so does a number that is no code point. *)
Definition encode_char (c : codepoint) : option (list N) :=
  if (c <? 128)%N then Some [c]
  else if (c <? 2048)%N then
    Some [192 + N.shiftr c 6; 128 + N.land c 63]%N
  else if (c <? 65536)%N then
    if ((55296 <=? c) && (c <=? 57343))%N then None
    else Some [224 + N.shiftr c 12;
               128 + N.land (N.shiftr c 6) 63;
               128 + N.land c 63]%N
  else if (c <? 1114112)%N then
    Some [240 + N.shiftr c 18;
          128 + N.land (N.shiftr c 12) 63;
          128 + N.land (N.shiftr c 6) 63;
          128 + N.land c 63]%N
  else None.

Fixpoint encode (s : pystr) : option (list N) :=
  match s with
  | [] => Some []
  | c :: s' =>
      match encode_char c, encode s' with
      | Some b, Some bs => Some (b ++ bs)
      | _, _ => None
      end
  end.

End Utf8.

(** What one pass of the loop meets at [input(...)]: a line of text, with
    whether [ser.write] would return if it is called in this pass; an
    exception other than the interrupt (the end of the input, say); or
    [KeyboardInterrupt]. *)
Inductive Keyboard :=
| Entered (text : pystr) (port_ok : bool)
| InputFails
| Interrupt.

(** The [print]s of [command_sender]. *)
Inductive RelayConsole :=
| CommandBanner
| Exiting
| Sent (command : pystr)
| InterfaceStopped
| SendError.

(** The payloads handed to [ser.write], in order, what was printed, and
    whether the loop still waits for input after the last event. *)
Record Relay := {
  written : list (list N);
  relay_console : list RelayConsole;
  waiting : bool
}.

Definition stopped (m : RelayConsole) : Relay :=
  {| written := []; relay_console := [m]; waiting := false |}.

Definition and_then (payload : list (list N)) (m : list RelayConsole)
           (rest : Relay) : Relay :=
  {| written := payload ++ written rest;
     relay_console := m ++ relay_console rest;
     waiting := waiting rest |}.

Section CommandSender.

Variable db : Py.UnicodeDB.

(** Line 99: [command.lower() == 'quit']. *)
Definition is_quit (command : pystr) : bool :=
  pystr_eqb (Py.lower db command) (str "quit").

(** Lines 96-110, over the events of the keyboard. *)
Fixpoint command_loop (keys : list Keyboard) : Relay :=
  match keys with
  | [] => {| written := []; relay_console := []; waiting := true |}
  | Interrupt :: _ => stopped InterfaceStopped
  | InputFails :: more => and_then [] [SendError] (command_loop more)
  | Entered text port_ok :: more =>
      let command := Py.strip text in
      if is_quit command then stopped Exiting
      else
        match command with
        | [] => command_loop more
        | _ :: _ =>
            match Utf8.encode (command ++ [13%N]) with
            | None =>
                (* [encode] raises: nothing reaches the port *)
                and_then [] [SendError] (command_loop more)
            | Some payload =>
                and_then [payload]
                         [if port_ok then Sent command else SendError]
                         (command_loop more)
            end
        end
  end.

(** Lines 88-110: the banner, then the loop. *)
Definition command_sender (keys : list Keyboard) : Relay :=
  and_then [] [CommandBanner] (command_loop keys).

(** The events that end the loop: [quit] and the interrupt. *)
Definition ends_relay (k : Keyboard) : bool :=
  match k with
  | Entered text _ => is_quit (Py.strip text)
  | InputFails => false
  | Interrupt => true
  end.

End CommandSender.

(** ** Counts over what the ingestion loop wrote and printed *)

(** The rows written that are not the header row. *)
Definition data_rows (written : list (list pystr)) : nat :=
  length written - header_rows written.

(** The sum of the counts of the summaries printed. *)
Fixpoint summary_total (printed : list Console) : Z :=
  match printed with
  | [] => 0
  | Summary count :: more => count + summary_total more
  | _ :: more => summary_total more
  end.

(** White space for [float], or one of the four separators U+001C to
    U+001F that [str.strip] removes and [float] does not. *)
Definition blankish (c : codepoint) : bool :=
  Py.c_isspace c || ((28 <=? c) && (c <=? 31))%N.

(** ** Sample lines *)

Definition numbers_1_to_21 : list pystr :=
  map str ["1"; "2"; "3"; "4"; "5"; "6"; "7"; "8"; "9"; "10"; "11"; "12";
           "13"; "14"; "15"; "16"; "17"; "18"; "19"; "20"; "21"]%string.

(** [','.join(tokens)] *)
Fixpoint join_comma (tokens : list pystr) : pystr :=
  match tokens with
  | [] => []
  | [t] => t
  | t :: more => t ++ comma :: join_comma more
  end.

(** A token that the cleaning leaves as it is: no comma, no control
    character, no white space at either end. *)
Definition plain_token (t : pystr) : bool :=
  forallb (fun c => negb (c =? comma)%N && negb (Py.is_control c)) t
  && pystr_eqb (Py.strip t) t.

(** Three stray tokens before a full frame. *)
Definition junk3 : list pystr := map str ["ts"; ""; "x9"]%string.
Definition line_junk3 : pystr := join_comma (junk3 ++ numbers_1_to_21).

Definition line_of_14 : pystr := join_comma (firstn 14 numbers_1_to_21).
Definition line_of_15 : pystr := join_comma (firstn 15 numbers_1_to_21).
Definition line_of_21 : pystr := join_comma numbers_1_to_21.

(** 15 parts, 12 of them numeric, and the same with one numeric part
    fewer. *)
Definition line_12_of_15 : pystr :=
  join_comma (map str ["a"; "b"; "c"]%string ++ firstn 12 numbers_1_to_21).
Definition line_11_of_15 : pystr :=
  join_comma (map str ["a"; "b"; "c"; "d"]%string ++ firstn 11 numbers_1_to_21).

(** A boot message, and the header with a stray control character in the
    marker. *)
Definition boot_line : pystr := str "Booting up...".
Definition header_line : pystr := join_comma EXPECTED_HEADER.
Definition broken_header_line : pystr := str "AccX," ++ 1%N :: str "AccY,AccZ".

(** A reading of [line] at time [t]. *)
Definition reading (line : pystr) (t : Z) : Reading :=
  {| raw := line ++ [13%N; 10%N];
     now_iso := str "2026-01-01T00:00:00";
     current_time := t |}.

(** The scenario of the specification, with the header echoed once more. *)
Definition scenario : list Reading :=
  [reading boot_line 1; reading header_line 2;
   reading (line_of_21 ++ str ",extra") 3;
   reading (str "garbage,text,line") 4; reading header_line 5].

(** A frame between stray tokens, a blank line, and what an operator
    types. *)
Definition line_junk3_extra : pystr := line_junk3 ++ str ",extra,7".
Definition blank_reading : Reading := reading (str "   ") 9.
Definition two_records : list Reading :=
  [reading line_of_21 1; reading line_of_21 40].
Definition typed_quit : Keyboard := Entered (str " QUIT ") true.
Definition typed_before : list Keyboard :=
  [Entered (str " f ") true; InputFails; Entered (str "") true;
   Entered (str "hello") false].
Definition typed_after : list Keyboard := [Entered (str "s") true].

(** * Facts *)

(** ** The builtins *)

Lemma startswith_spec (p s : pystr) :
  Py.startswith p s = true <-> exists b, s = p ++ b.
Proof.
  revert s. induction p as [|a p IH]; intros s; simpl.
  - split; [intros _; exists s; reflexivity | reflexivity].
  - destruct s as [|c s].
    + split; [discriminate | intros (b & E); discriminate].
    + rewrite andb_true_iff, N.eqb_eq, IH. split.
      * intros (-> & b & ->). exists b. reflexivity.
      * intros (b & E). injection E as -> ->. split; [reflexivity|].
        exists b. reflexivity.
Qed.

(** [p in s] holds exactly when [s] is [a ++ p ++ b]. *)
Lemma contains_spec (p s : pystr) :
  Py.contains p s = true <-> exists a b, s = a ++ p ++ b.
Proof.
  induction s as [|c s IH]; simpl.
  - rewrite startswith_spec. split.
    + intros (b & E). exists [], b. assumption.
    + intros (a & b & E). destruct a; [|discriminate].
      exists b. assumption.
  - rewrite orb_true_iff, startswith_spec, IH. split.
    + intros [(b & E) | (a & b & E)].
      * exists [], b. assumption.
      * exists (c :: a), b. simpl. congruence.
    + intros (a & b & E). destruct a as [|x a]; simpl in E.
      * left. exists b. assumption.
      * right. injection E as -> ->. exists a, b. reflexivity.
Qed.

Lemma lstrip_keeps (a b : pystr) (c : codepoint) :
  Py.isspace c = false ->
  exists a', Py.lstrip (a ++ c :: b) = a' ++ c :: b.
Proof.
  intros Hc. induction a as [|x a IH]; simpl.
  - rewrite Hc. exists []. reflexivity.
  - destruct (Py.isspace x); [assumption|].
    exists (x :: a). reflexivity.
Qed.

Lemma rstrip_keeps (a b : pystr) (c : codepoint) :
  Py.isspace c = false ->
  Py.rstrip (a ++ c :: b) = a ++ c :: Py.rstrip b.
Proof.
  intros Hc. induction a as [|x a IH]; simpl.
  - rewrite Hc. destruct (Py.rstrip b); reflexivity.
  - rewrite IH. destruct a; reflexivity.
Qed.

Lemma split_nonempty (sep : codepoint) (s : pystr) :
  1 <= length (Py.split sep s).
Proof.
  induction s as [|c s IH]; simpl; [lia|].
  destruct (c =? sep)%N; simpl; [lia|].
  destruct (Py.split sep s); simpl; lia.
Qed.

(** [x,y] splits into the parts of [x] followed by the parts of [y]. *)
Lemma split_app_sep (sep : codepoint) (a b : pystr) :
  Py.split sep (a ++ sep :: b) = Py.split sep a ++ Py.split sep b.
Proof.
  induction a as [|c a IH]; simpl.
  - rewrite N.eqb_refl. reflexivity.
  - destruct (N.eqb_spec c sep).
    + rewrite IH. reflexivity.
    + rewrite IH. pose proof (split_nonempty sep a) as L.
      destruct (Py.split sep a); [simpl in L; lia | reflexivity].
Qed.

Lemma sub_control_app (a b : pystr) :
  Py.sub_control (a ++ b) = Py.sub_control a ++ Py.sub_control b.
Proof. apply filter_app. Qed.

Lemma strip_keeps (a m b : pystr) (c1 c2 : codepoint) :
  Py.isspace c1 = false -> Py.isspace c2 = false ->
  exists a' b',
    Py.strip (a ++ (c1 :: m ++ [c2]) ++ b) = a' ++ (c1 :: m ++ [c2]) ++ b'.
Proof.
  intros H1 H2. unfold Py.strip.
  destruct (lstrip_keeps a ((m ++ [c2]) ++ b) c1 H1) as (a' & E).
  simpl app at 2. rewrite E.
  exists a', (Py.rstrip b).
  replace (a' ++ c1 :: (m ++ [c2]) ++ b) with ((a' ++ c1 :: m) ++ c2 :: b)
    by (rewrite <- !app_assoc; reflexivity).
  rewrite (rstrip_keeps (a' ++ c1 :: m) b c2 H2).
  simpl. rewrite <- !app_assoc. reflexivity.
Qed.

(** The header marker survives [strip] and the removal of control
    characters: it starts and ends with a letter and has no control
    character. *)
Lemma marker_in_clean (line : pystr) :
  Py.contains header_marker line = true ->
  Py.contains header_marker (Py.strip line) = true
  /\ exists a b, clean line = a ++ header_marker ++ b.
Proof.
  rewrite !contains_spec. intros (a & b & ->).
  assert (E : exists a' b',
             Py.strip (a ++ header_marker ++ b) = a' ++ header_marker ++ b').
  { exact (strip_keeps a (str "ccX,AccY,Acc") b 65%N 90%N eq_refl eq_refl). }
  destruct E as (a' & b' & E). split.
  - exists a', b'. assumption.
  - unfold clean. rewrite E, !sub_control_app.
    exists (Py.sub_control a'), (Py.sub_control b'). reflexivity.
Qed.

Lemma pystr_eqb_eq (a b : pystr) : pystr_eqb a b = true <-> a = b.
Proof.
  revert b. induction a as [|x a IH]; intros [|y b]; simpl;
    try (split; [discriminate | intros E; discriminate E]);
    [split; reflexivity|].
  rewrite andb_true_iff, N.eqb_eq, IH. split.
  - intros (-> & ->). reflexivity.
  - intros E. injection E as -> ->. split; reflexivity.
Qed.

Lemma lstrip_length (s : pystr) : length (Py.lstrip s) <= length s.
Proof.
  induction s as [|c s IH]; simpl; [lia|].
  destruct (Py.isspace c); simpl; lia.
Qed.

Lemma rstrip_length (s : pystr) : length (Py.rstrip s) <= length s.
Proof.
  induction s as [|c s IH]; simpl; [lia|].
  destruct (Py.rstrip s); [destruct (Py.isspace c)|]; simpl in *; lia.
Qed.

(** A text that [strip] leaves alone is left alone by [lstrip] and by
    [rstrip]. *)
Lemma strip_fixed (t : pystr) :
  Py.strip t = t -> Py.lstrip t = t /\ Py.rstrip t = t.
Proof.
  unfold Py.strip. intros E.
  assert (L : Py.lstrip t = t).
  { destruct t as [|c t]; [reflexivity|]. simpl in *.
    destruct (Py.isspace c); [|reflexivity].
    pose proof (rstrip_length (Py.lstrip t)) as R.
    pose proof (lstrip_length t) as L.
    rewrite E in R. simpl in R. lia. }
  split; [assumption|]. rewrite L in E. assumption.
Qed.

Lemma lstrip_app_keep (a b : pystr) (c : codepoint) :
  Py.isspace c = false -> Py.lstrip (a ++ c :: b) = Py.lstrip a ++ c :: b.
Proof.
  intros Hc. induction a as [|x a IH]; simpl.
  - rewrite Hc. reflexivity.
  - destruct (Py.isspace x); [assumption | reflexivity].
Qed.

Lemma sub_control_fixed (t : pystr) :
  forallb (fun c => negb (Py.is_control c)) t = true -> Py.sub_control t = t.
Proof.
  induction t as [|c t IH]; simpl; [reflexivity|].
  rewrite andb_true_iff. intros (Hc & Ht). rewrite Hc, (IH Ht). reflexivity.
Qed.

Lemma split_no_sep (sep : codepoint) (t : pystr) :
  forallb (fun c => negb (c =? sep)%N) t = true -> Py.split sep t = [t].
Proof.
  induction t as [|c t IH]; simpl; [reflexivity|].
  rewrite andb_true_iff, negb_true_iff. intros (Hc & Ht).
  rewrite Hc, (IH Ht). reflexivity.
Qed.

Lemma plain_token_facts (t : pystr) :
  plain_token t = true ->
  forallb (fun c => negb (c =? comma)%N) t = true
  /\ forallb (fun c => negb (Py.is_control c)) t = true
  /\ Py.strip t = t.
Proof.
  unfold plain_token. rewrite andb_true_iff, pystr_eqb_eq.
  intros (F & S). split; [|split]; trivial.
  - rewrite forallb_forall in *. intros c I. specialize (F c I).
    apply andb_true_iff in F. tauto.
  - rewrite forallb_forall in *. intros c I. specialize (F c I).
    apply andb_true_iff in F. tauto.
Qed.

(** A line joined from plain tokens is cut back into these tokens. *)
Lemma csv_parts_join (tokens : list pystr) :
  tokens <> [] ->
  Forall (fun t => plain_token t = true) tokens ->
  csv_parts (join_comma tokens) = tokens.
Proof.
  intros NE P.
  assert (L : Py.lstrip (join_comma tokens) = join_comma tokens).
  { destruct P as [|t more Pt _]; [congruence|].
    apply plain_token_facts in Pt. destruct Pt as (_ & _ & St).
    apply strip_fixed in St. destruct more as [|t2 more]; simpl.
    - tauto.
    - rewrite lstrip_app_keep by reflexivity.
      destruct St as (-> & _). reflexivity. }
  assert (R : Py.rstrip (join_comma tokens) = join_comma tokens).
  { clear L. induction P as [|t more Pt Pm IH]; [congruence|].
    destruct more as [|t2 more].
    - apply plain_token_facts in Pt. destruct Pt as (_ & _ & St).
      apply strip_fixed in St. simpl. tauto.
    - change (join_comma (t :: t2 :: more))
        with (t ++ comma :: join_comma (t2 :: more)).
      rewrite rstrip_keeps by reflexivity. rewrite IH by discriminate.
      reflexivity. }
  assert (C : Py.sub_control (join_comma tokens) = join_comma tokens).
  { clear L R. induction P as [|t more Pt Pm IH]; [congruence|].
    apply plain_token_facts in Pt. destruct Pt as (_ & Ct & _).
    destruct more as [|t2 more].
    - simpl. apply sub_control_fixed. assumption.
    - change (join_comma (t :: t2 :: more))
        with (t ++ [comma] ++ join_comma (t2 :: more)).
      rewrite !sub_control_app, IH by discriminate.
      rewrite (sub_control_fixed t Ct). reflexivity. }
  assert (S : Py.split comma (join_comma tokens) = tokens).
  { clear L R C. induction P as [|t more Pt Pm IH]; [congruence|].
    apply plain_token_facts in Pt. destruct Pt as (Nt & _ & _).
    destruct more as [|t2 more].
    - simpl. apply split_no_sep. assumption.
    - change (join_comma (t :: t2 :: more))
        with (t ++ comma :: join_comma (t2 :: more)).
      rewrite split_app_sep, IH by discriminate.
      rewrite (split_no_sep comma t Nt). reflexivity. }
  assert (T : Py.strip (join_comma tokens) = join_comma tokens).
  { unfold Py.strip. rewrite L, R. reflexivity. }
  unfold csv_parts, clean. rewrite T, C, S.
  clear NE L R C S T. induction P as [|t more Pt Pm IH]; [reflexivity|].
  apply plain_token_facts in Pt. destruct Pt as (_ & _ & St).
  simpl. rewrite St, IH. reflexivity.
Qed.

(** ** The extractor *)

Section ExtractorFacts.

Variable db : Py.UnicodeDB.

Lemma expected_header_length : length EXPECTED_HEADER = 21.
Proof. reflexivity. Qed.

Lemma numeric_run_length (l : list pystr) :
  length (numeric_run db l) <= length l.
Proof.
  induction l as [|p l IH]; simpl; [lia|].
  destruct (is_numeric db p); simpl; lia.
Qed.

Lemma numeric_run_numeric (l : list pystr) :
  Forall (fun t => is_numeric db t = true) (numeric_run db l).
Proof.
  induction l as [|p l IH]; simpl; [constructor|].
  destruct (is_numeric db p) eqn:E; constructor; assumption.
Qed.

Lemma numeric_run_whole (l : list pystr) :
  length l <= length (numeric_run db l) -> numeric_run db l = l.
Proof.
  induction l as [|p l IH]; simpl; [reflexivity|].
  destruct (is_numeric db p); simpl; intros H; [|lia].
  f_equal. apply IH. lia.
Qed.

Lemma numeric_run_of_numeric (l : list pystr) :
  Forall (fun t => is_numeric db t = true) l -> numeric_run db l = l.
Proof.
  induction 1 as [|p l Hp _ IH]; simpl; [reflexivity|].
  rewrite Hp, IH. reflexivity.
Qed.

Lemma numeric_run_stops (p : pystr) (l : list pystr) :
  is_numeric db p = false -> numeric_run db (p :: l) = [].
Proof. intros H. simpl. rewrite H. reflexivity. Qed.

(** The walk of the specification is the inner loop of the code on the
    first [n] parts. *)
Lemma greedy_run_firstn (n : nat) (l : list pystr) :
  greedy_run db n l = numeric_run db (firstn n l).
Proof.
  revert l. induction n as [|n IH]; intros [|p l]; simpl; try reflexivity.
  rewrite IH. reflexivity.
Qed.

Lemma run_reaches_bound (parts : list pystr) (i : nat) :
  run_reaches db parts i = true -> i + length EXPECTED_HEADER <= length parts.
Proof.
  unfold run_reaches. rewrite greedy_run_firstn, Nat.eqb_eq.
  intros H.
  pose proof (numeric_run_length
                (firstn (length EXPECTED_HEADER) (skipn i parts))) as L.
  rewrite length_firstn, length_skipn in L.
  rewrite expected_header_length in *. lia.
Qed.

(** One pass of the outer loop returns exactly when the run from [i]
    reaches [N], and then returns the [N] parts from [i] on. *)
Lemma try_offset_run (parts : list pystr) (i : nat) :
  try_offset db parts i =
  if run_reaches db parts i
  then Some (firstn (length EXPECTED_HEADER) (skipn i parts))
  else None.
Proof.
  unfold try_offset, run_reaches. rewrite greedy_run_firstn.
  set (n := length EXPECTED_HEADER).
  set (c := skipn i parts).
  pose proof (numeric_run_length (firstn n c)) as L.
  pose proof (firstn_le_length n c) as F.
  destruct (Nat.leb_spec n (length c)) as [Hc|Hc].
  - destruct (Nat.leb_spec n (length (numeric_run db (firstn n c)))) as [Hr|Hr].
    + rewrite (numeric_run_whole (firstn n c)) by lia.
      rewrite firstn_firstn, Nat.min_id.
      rewrite length_firstn, Nat.min_l by lia.
      rewrite Nat.eqb_refl. reflexivity.
    + destruct (Nat.eqb_spec (length (numeric_run db (firstn n c))) n);
        [lia | reflexivity].
  - rewrite length_firstn in L.
    destruct (Nat.eqb_spec (length (numeric_run db (firstn n c))) n);
      [lia | reflexivity].
Qed.

Lemma run_reaches_numeric (parts : list pystr) (i : nat) :
  run_reaches db parts i = true ->
  Forall (fun t => is_numeric db t = true)
         (firstn (length EXPECTED_HEADER) (skipn i parts)).
Proof.
  unfold run_reaches. rewrite greedy_run_firstn, Nat.eqb_eq. intros H.
  rewrite <- (numeric_run_whole
                (firstn (length EXPECTED_HEADER) (skipn i parts))).
  - apply numeric_run_numeric.
  - rewrite H. apply firstn_le_length.
Qed.

(** The outer loop: the first offset whose body returns decides. *)
Lemma first_return_seq (body : nat -> option (list pystr)) (n a : nat)
      (r : list pystr) :
  first_return body (seq a n) = Some r <->
  exists i, a <= i < a + n /\ body i = Some r
            /\ forall j, a <= j < i -> body j = None.
Proof.
  revert a. induction n as [|n IH]; intros a; simpl.
  - split; [discriminate | intros (i & H & _); lia].
  - destruct (body a) as [r'|] eqn:E.
    + split.
      * intros H. exists a. split; [lia|]. split; [congruence|].
        intros j Hj. lia.
      * intros (i & Hi & Hb & Hmin).
        destruct (Nat.eq_dec i a) as [->|Hne]; [congruence|].
        rewrite (Hmin a) in E by lia. discriminate.
    + rewrite IH. split.
      * intros (i & Hi & Hb & Hmin). exists i.
        split; [lia|]. split; [assumption|].
        intros j Hj. destruct (Nat.eq_dec j a) as [->|]; [assumption|].
        apply Hmin. lia.
      * intros (i & Hi & Hb & Hmin).
        destruct (Nat.eq_dec i a) as [->|Hne]; [congruence|].
        exists i. split; [lia|]. split; [assumption|].
        intros j Hj. apply Hmin. lia.
Qed.

Lemma first_return_none
      (body : nat -> option (list pystr)) (offsets : list nat) :
  (forall i, In i offsets -> body i = None) ->
  first_return body offsets = None.
Proof.
  induction offsets as [|i more IH]; simpl; intros H; [reflexivity|].
  rewrite (H i) by (left; reflexivity). apply IH. intros j Hj. apply H.
  right. assumption.
Qed.

Lemma clean_csv_line_some (line : pystr) (r : list pystr) :
  clean_csv_line db line = Some r <->
  exists i, run_reaches db (csv_parts line) i = true
            /\ r = firstn (length EXPECTED_HEADER) (skipn i (csv_parts line))
            /\ forall j, j < i -> run_reaches db (csv_parts line) j = false.
Proof.
  unfold clean_csv_line. rewrite first_return_seq. split.
  - intros (i & Hi & Hb & Hmin). exists i.
    rewrite try_offset_run in Hb.
    destruct (run_reaches db (csv_parts line) i) eqn:E; [|discriminate].
    split; [reflexivity|]. split; [congruence|].
    intros j Hj. specialize (Hmin j). rewrite try_offset_run in Hmin.
    destruct (run_reaches db (csv_parts line) j); [|reflexivity].
    discriminate Hmin. lia.
  - intros (i & Hr & -> & Hmin). exists i.
    pose proof (run_reaches_bound _ _ Hr) as B.
    rewrite expected_header_length in B.
    split; [lia|]. split.
    + rewrite try_offset_run, Hr. reflexivity.
    + intros j Hj. rewrite try_offset_run, Hmin by lia. reflexivity.
Qed.

Lemma skipn_in_junk (junk nums : list pystr) (j : nat) :
  j < length junk ->
  exists p rest, skipn j (junk ++ nums) = p :: rest /\ In p junk.
Proof.
  revert j. induction junk as [|q junk IH]; simpl; intros j Hj; [lia|].
  destruct j as [|j]; simpl.
  - exists q, (junk ++ nums). split; [reflexivity | left; reflexivity].
  - destruct (IH j) as (p & rest & E & I); [lia|].
    exists p, rest. split; [assumption | right; assumption].
Qed.

Lemma clean_csv_line_short (line : pystr) :
  length (csv_parts line) < length EXPECTED_HEADER ->
  clean_csv_line db line = None.
Proof.
  intros H. unfold clean_csv_line. apply first_return_none. intros i _.
  rewrite try_offset_run.
  destruct (run_reaches db (csv_parts line) i) eqn:E; [|reflexivity].
  apply run_reaches_bound in E. lia.
Qed.

Lemma clean_csv_line_sound (line : pystr) (record : list pystr) :
  clean_csv_line db line = Some record ->
  length record = length EXPECTED_HEADER
  /\ Forall (fun t => is_numeric db t = true) record.
Proof.
  intros H. apply clean_csv_line_some in H. destruct H as (i & Hr & -> & _).
  split.
  - pose proof (run_reaches_bound _ _ Hr).
    rewrite length_firstn, length_skipn. lia.
  - apply run_reaches_numeric. assumption.
Qed.

Lemma clean_csv_line_after_junk (line : pystr) (junk nums : list pystr) :
  csv_parts line = junk ++ nums ->
  Forall (fun t => is_numeric db t = false) junk ->
  Forall (fun t => is_numeric db t = true) nums ->
  length nums = length EXPECTED_HEADER ->
  clean_csv_line db line = Some nums.
Proof.
  intros Hparts Hjunk Hnums Hlen.
  apply clean_csv_line_some. exists (length junk). rewrite Hparts.
  assert (Hskip : skipn (length junk) (junk ++ nums) = nums).
  { rewrite skipn_app, skipn_all, Nat.sub_diag. reflexivity. }
  split; [|split].
  - unfold run_reaches.
    rewrite Hskip, greedy_run_firstn, <- Hlen, firstn_all.
    rewrite numeric_run_of_numeric by assumption. apply Nat.eqb_refl.
  - rewrite Hskip, <- Hlen, firstn_all. reflexivity.
  - intros j Hj. unfold run_reaches.
    destruct (skipn_in_junk junk nums j Hj) as (p & rest & E & I).
    rewrite E, greedy_run_firstn, expected_header_length.
    rewrite firstn_cons, numeric_run_stops; [reflexivity|].
    rewrite Forall_forall in Hjunk. apply Hjunk. assumption.
Qed.

(** C1. [clean_csv_line] returns the [N = 21] parts [parts[i .. i+20]] of
    the cleaned, comma-split, trimmed line for the smallest offset [i] at
    which the greedy numeric run of the specification reaches [N] values,
    and [None] when no offset does; in particular, when the parts are [k]
    non-numeric tokens followed by [N] numeric tokens, it returns exactly
    those [N] tokens, for every [k], and so it does on the line that joins
    such tokens by commas when the cleaning leaves the tokens as they
    are. *)
Theorem clean_csv_line_earliest_full_run (line : pystr) :
  let parts := csv_parts line in
  let N := length EXPECTED_HEADER in
  N = 21
  /\ (forall i,
        run_reaches db parts i = true ->
        (forall j, j < i -> run_reaches db parts j = false) ->
        clean_csv_line db line = Some (firstn N (skipn i parts))
        /\ length (firstn N (skipn i parts)) = N)
  /\ ((forall i, run_reaches db parts i = false) ->
      clean_csv_line db line = None)
  /\ (forall junk nums,
        parts = junk ++ nums \/
        (line = join_comma (junk ++ nums)
         /\ Forall (fun t => plain_token t = true) (junk ++ nums)) ->
        Forall (fun t => is_numeric db t = false) junk ->
        Forall (fun t => is_numeric db t = true) nums ->
        length nums = N ->
        clean_csv_line db line = Some nums).
Proof.
  cbv zeta. split; [reflexivity|]. split; [|split].
  - intros i Hr Hmin. split.
    + apply clean_csv_line_some. exists i. auto.
    + pose proof (run_reaches_bound _ _ Hr).
      rewrite length_firstn, length_skipn. lia.
  - intros Hnone.
    destruct (clean_csv_line db line) as [r|] eqn:E; [|reflexivity].
    apply clean_csv_line_some in E. destruct E as (i & Hr & _).
    rewrite Hnone in Hr. discriminate.
  - intros junk nums Hparts Hjunk Hnums Hlen.
    apply clean_csv_line_after_junk with (junk := junk); trivial.
    destruct Hparts as [Hparts | (-> & P)]; [assumption|].
    apply csv_parts_join; [|assumption].
    intros E. apply app_eq_nil in E. destruct E as (_ & ->).
    discriminate Hlen.
Qed.

(** C2. Whenever [clean_csv_line] returns a record and not [None], the
    record has exactly [N = 21] tokens and [is_numeric] holds of each. *)
Theorem clean_csv_line_record_sound (line : pystr) (record : list pystr) :
  clean_csv_line db line = Some record ->
  length record = 21 /\ Forall (fun t => is_numeric db t = true) record.
Proof.
  intros H. apply clean_csv_line_sound in H.
  rewrite expected_header_length in H. exact H.
Qed.

End ExtractorFacts.

(** ** The classifier *)

Section ClassifierFacts.

Variable db : Py.UnicodeDB.

Lemma numeric_count_le (parts : list pystr) :
  numeric_count db parts <= length parts.
Proof. apply filter_length_le. Qed.

Lemma numeric_count_lt (parts : list pystr) (p : pystr) :
  In p parts -> is_numeric db (Py.strip p) = false ->
  numeric_count db parts < length parts.
Proof.
  unfold numeric_count. induction parts as [|q parts IH]; simpl; [tauto|].
  intros [-> | H] Hp.
  - rewrite Hp.
    pose proof (filter_length_le
                  (fun part => is_numeric db (Py.strip part)) parts).
    lia.
  - specialize (IH H Hp). destruct (is_numeric db (Py.strip q)); simpl; lia.
Qed.

(** A line that has the header marker has the part [AccY], which is not
    numeric: the header test never hides a line whose parts are all
    numeric. *)
Lemma marker_not_all_numeric (line : pystr) :
  Py.contains header_marker line = true ->
  numeric_count db (Py.split comma (clean line))
  < length (Py.split comma (clean line)).
Proof.
  intros H. destruct (marker_in_clean line H) as (_ & a & b & E).
  apply numeric_count_lt with (p := str "AccY"); [|reflexivity].
  rewrite E.
  replace (a ++ header_marker ++ b)
    with ((a ++ str "AccX") ++ comma :: str "AccY" ++ comma :: str "AccZ" ++ b)
    by (rewrite <- app_assoc; reflexivity).
  rewrite split_app_sep, split_app_sep.
  apply in_or_app. right. apply in_or_app. left. left. reflexivity.
Qed.

(** The product [n * 0.8] of line 52 for the widths that reach it. *)
Lemma below_threshold_band (n k : Z) :
  (15 <= n <= 25)%Z ->
  Py.int_lt_float k (Py.float_mul (Py.float_of_int n) Py.float_0_8)
  = (5 * k <? 4 * n)%Z.
Proof.
  intros Hn.
  assert (C : (n = 15 \/ n = 16 \/ n = 17 \/ n = 18 \/ n = 19 \/ n = 20
               \/ n = 21 \/ n = 22 \/ n = 23 \/ n = 24 \/ n = 25)%Z) by lia.
  unfold Py.int_lt_float.
  repeat (destruct C as [-> | C]); try subst n;
    match goal with
    | |- context [Py.float_mul ?a ?b] =>
        let v := eval vm_compute in (Py.float_mul a b) in
        change (Py.float_mul a b) with v
    end;
    cbn [Py.expo Py.mant];
    match goal with
    | |- (if ?c then _ else _) = _ =>
        let v := eval vm_compute in c in change c with v
    end;
    cbv iota;
    match goal with
    | |- context [(2 ^ ?e)%Z] =>
        let v := eval vm_compute in (2 ^ e)%Z in change (2 ^ e)%Z with v
    end;
    apply Bool.eq_iff_eq_true; rewrite !Z.ltb_lt; lia.
Qed.

Lemma is_csv_data_line_noise (line : pystr) :
  has_noise_keyword db (clean line) = true -> is_csv_data_line db line = false.
Proof. intros H. unfold is_csv_data_line. rewrite H. reflexivity. Qed.

Lemma is_csv_data_line_off_band (line : pystr) :
  length (Py.split comma (clean line)) < 15
  \/ 25 < length (Py.split comma (clean line)) ->
  is_csv_data_line db line = false.
Proof.
  intros H. unfold is_csv_data_line.
  destruct (has_noise_keyword db (clean line)); [reflexivity|].
  destruct (Nat.ltb_spec (length (Py.split comma (clean line))) 15);
    [reflexivity|].
  destruct (Nat.ltb_spec 25 (length (Py.split comma (clean line))));
    [reflexivity | lia].
Qed.

(** Lines 47-55 for a line that passes the keyword test and the width
    test: the float comparison of line 52 decides as the exact inequality
    [4 * len(parts) <= 5 * numeric_count]. *)
Lemma is_csv_data_line_in_band (line : pystr) :
  has_noise_keyword db (clean line) = false ->
  15 <= length (Py.split comma (clean line)) <= 25 ->
  is_csv_data_line db line
  = (4 * length (Py.split comma (clean line))
     <=? 5 * numeric_count db (Py.split comma (clean line))).
Proof.
  intros Hk Hn. unfold is_csv_data_line. rewrite Hk.
  destruct (Nat.ltb_spec (length (Py.split comma (clean line))) 15); [lia|].
  destruct (Nat.ltb_spec 25 (length (Py.split comma (clean line)))); [lia|].
  cbn [orb]. rewrite below_threshold_band by lia.
  destruct (Z.ltb_spec
              (5 * Z.of_nat (numeric_count db (Py.split comma (clean line))))
              (4 * Z.of_nat (length (Py.split comma (clean line)))));
    symmetry; [apply Nat.leb_gt | apply Nat.leb_le]; lia.
Qed.

Lemma fraction_at_least_0_8 (parts : list pystr) :
  1 <= length parts ->
  (8 # 10 <= numeric_fraction db parts)%Q
  <-> 4 * length parts <= 5 * numeric_count db parts.
Proof.
  intros H. unfold numeric_fraction, Qle. cbn [Qnum Qden].
  destruct (length parts) as [|n] eqn:E; [lia|].
  rewrite <- Pos.of_nat_succ, Zpos_P_of_succ_nat. lia.
Qed.

Lemma classify_candidate (line : pystr) :
  classify db line = Candidate
  <-> Py.contains header_marker line = false
      /\ is_csv_data_line db line = true.
Proof.
  unfold classify.
  destruct (Py.contains header_marker line);
    [split; [discriminate | intros (? & _); discriminate]|].
  destruct (has_noise_keyword db (clean line)) eqn:K.
  - rewrite (is_csv_data_line_noise line K).
    split; [discriminate | intros (_ & ?); discriminate].
  - destruct (is_csv_data_line db line);
      split; auto; try discriminate. intros (_ & ?); discriminate.
Qed.

Lemma classify_unrecognized (line : pystr) :
  classify db line = Unrecognized
  <-> Py.contains header_marker line = false
      /\ has_noise_keyword db (clean line) = false
      /\ is_csv_data_line db line = false.
Proof.
  unfold classify.
  destruct (Py.contains header_marker line);
    [split; [discriminate | intros (? & _); discriminate]|].
  destruct (has_noise_keyword db (clean line));
    [split; [discriminate | intros (_ & ? & _); discriminate]|].
  destruct (is_csv_data_line db line);
    split; auto; try discriminate. intros (_ & _ & ?); discriminate.
Qed.

(** C3. A line whose cleaned, lower-cased text contains a keyword of the
    deny list is rejected by [is_csv_data_line] and is never a Candidate,
    whatever its parts are; among the lines that reach the keyword test
    (those without the header marker) it is Noise. *)
Theorem noise_keyword_never_candidate (line keyword : pystr) :
  In keyword noise_keywords ->
  Py.contains keyword (Py.lower db (clean line)) = true ->
  is_csv_data_line db line = false
  /\ classify db line <> Candidate
  /\ (Py.contains header_marker line = false -> classify db line = Noise).
Proof.
  intros Hin Hk.
  assert (K : has_noise_keyword db (clean line) = true).
  { unfold has_noise_keyword. apply existsb_exists. exists keyword. auto. }
  split; [apply is_csv_data_line_noise; assumption|]. split.
  - rewrite classify_candidate, (is_csv_data_line_noise line K).
    intros (_ & ?). discriminate.
  - intros M. unfold classify. rewrite M, K. reflexivity.
Qed.

(** C8. A keyword-free line whose cleaned comma split has fewer than 15 or
    more than 25 parts is rejected by [is_csv_data_line] (Unrecognized,
    for a line that reaches the test); 14 parts, all numeric, are
    Unrecognized, and 15 up to 25 parts, all numeric, are a Candidate: both
    ends of the band are inside. *)
Theorem width_band_inclusive (line : pystr) :
  let parts := Py.split comma (clean line) in
  has_noise_keyword db (clean line) = false ->
  (length parts < 15 \/ 25 < length parts ->
   is_csv_data_line db line = false
   /\ (Py.contains header_marker line = false ->
       classify db line = Unrecognized))
  /\ (numeric_count db parts = length parts ->
      (length parts = 14 -> classify db line = Unrecognized)
      /\ (15 <= length parts <= 25 ->
          is_csv_data_line db line = true
          /\ classify db line = Candidate)).
Proof.
  cbv zeta. intros K. split.
  - intros H. pose proof (is_csv_data_line_off_band line H) as F.
    split; [assumption|]. intros M. apply classify_unrecognized. auto.
  - intros All.
    assert (M : Py.contains header_marker line = false).
    { destruct (Py.contains header_marker line) eqn:M; [|reflexivity].
      pose proof (marker_not_all_numeric line M). lia. }
    split.
    + intros H. apply classify_unrecognized.
      split; [assumption|]. split; [assumption|].
      apply is_csv_data_line_off_band. lia.
    + intros H.
      assert (D : is_csv_data_line db line = true).
      { rewrite is_csv_data_line_in_band by (trivial; lia).
        apply Nat.leb_le. lia. }
      split; [assumption|]. apply classify_candidate. auto.
Qed.

(** C9. For a keyword-free line with 15 to 25 parts, [is_csv_data_line]
    accepts exactly when the fraction of parts that are numeric after
    trimming is at least 0.8 (and then the line, if it reaches the test, is
    a Candidate, else Unrecognized); exactly 80% is accepted, one numeric
    part fewer is not. *)
Theorem numeric_threshold_80_percent (line : pystr) :
  let parts := Py.split comma (clean line) in
  has_noise_keyword db (clean line) = false ->
  15 <= length parts <= 25 ->
  (is_csv_data_line db line = true
   <-> (8 # 10 <= numeric_fraction db parts)%Q)
  /\ (Py.contains header_marker line = false ->
      (classify db line = Candidate
       <-> (8 # 10 <= numeric_fraction db parts)%Q)
      /\ (classify db line = Unrecognized
          <-> ~ (8 # 10 <= numeric_fraction db parts)%Q))
  /\ (5 * numeric_count db parts = 4 * length parts ->
      is_csv_data_line db line = true)
  /\ (5 * (numeric_count db parts + 1) = 4 * length parts ->
      is_csv_data_line db line = false).
Proof.
  cbv zeta. intros K B.
  pose proof (is_csv_data_line_in_band line K B) as D.
  pose proof (fraction_at_least_0_8 (Py.split comma (clean line))) as F.
  assert (A : is_csv_data_line db line = true
              <-> (8 # 10
                   <= numeric_fraction db (Py.split comma (clean line)))%Q).
  { rewrite F by lia. rewrite D. apply Nat.leb_le. }
  split; [assumption|]. split; [|split].
  - intros M. split.
    + rewrite classify_candidate, <- A. tauto.
    + rewrite classify_unrecognized, <- A.
      destruct (is_csv_data_line db line);
        split; auto; try discriminate; try tauto.
      intros (_ & _ & ?); discriminate.
  - intros E. rewrite D. apply Nat.leb_le. lia.
  - intros E. rewrite D. apply Nat.leb_gt. lia.
Qed.

End ClassifierFacts.

(** ** The ingestion loop *)

Section SessionFacts.

Variable db : Py.UnicodeDB.

Lemma is_csv_data_line_empty : is_csv_data_line db [] = false.
Proof. reflexivity. Qed.

Lemma contains_marker_empty : Py.contains header_marker [] = false.
Proof. reflexivity. Qed.

(** Line 145: the first header. *)
Lemma main_step_first_header (st : Session) (r : Reading) :
  has_marker r = true -> header_written st = false ->
  main_step db st r =
  ({| header_written := true;
      csv_message_count := csv_message_count st;
      last_summary_time := last_summary_time st |},
   {| rows := [header_row]; console := [HeaderDetected] |}).
Proof.
  unfold has_marker, main_step. intros M W.
  destruct (Py.strip (raw r)) as [|c l] eqn:E; [discriminate|].
  rewrite M, W. reflexivity.
Qed.

(** Line 152: a repeated header. *)
Lemma main_step_repeated_header (st : Session) (r : Reading) :
  has_marker r = true -> header_written st = true ->
  main_step db st r = (st, silent).
Proof.
  unfold has_marker, main_step. intros M W.
  destruct (Py.strip (raw r)) as [|c l] eqn:E; [discriminate|].
  rewrite M, W. reflexivity.
Qed.

(** Lines 159-170: a record was extracted. *)
Lemma main_step_record (st : Session) (r : Reading) (data : list pystr) :
  has_marker r = false ->
  is_csv_data_line db (Py.strip (raw r)) = true ->
  clean_csv_line db (Py.strip (raw r)) = Some data ->
  main_step db st r =
  if (summary_interval <=? current_time r - last_summary_time st)%Z
  then ({| header_written := header_written st;
           csv_message_count := 0;
           last_summary_time := current_time r |},
        {| rows := [now_iso r :: data];
           console := [Summary (csv_message_count st + 1)] |})
  else ({| header_written := header_written st;
           csv_message_count := csv_message_count st + 1;
           last_summary_time := last_summary_time st |},
        {| rows := [now_iso r :: data]; console := [] |}).
Proof.
  unfold has_marker, main_step. intros M D C.
  pose proof (clean_csv_line_sound db _ _ C) as (L & _).
  destruct (Py.strip (raw r)) as [|c l] eqn:E;
    [rewrite is_csv_data_line_empty in D; discriminate|].
  rewrite M, D, C. cbn [andb].
  destruct data as [|t data]; [discriminate L | reflexivity].
Qed.

(** Line 172: the line passed [is_csv_data_line] and nothing was
    extracted. *)
Lemma main_step_parse_error (st : Session) (r : Reading) :
  has_marker r = false ->
  is_csv_data_line db (Py.strip (raw r)) = true ->
  clean_csv_line db (Py.strip (raw r)) = None ->
  main_step db st r =
  (st, {| rows := []; console := [ParseError (Py.strip (raw r))] |}).
Proof.
  unfold has_marker, main_step. intros M D C.
  destruct (Py.strip (raw r)) as [|c l] eqn:E;
    [rewrite is_csv_data_line_empty in D; discriminate|].
  rewrite M, D, C. reflexivity.
Qed.

(** Lines 141 and 175: an empty line is skipped, any other line is
    echoed. *)
Lemma main_step_other (st : Session) (r : Reading) :
  has_marker r = false ->
  is_csv_data_line db (Py.strip (raw r)) = false ->
  main_step db st r =
  (st, match Py.strip (raw r) with
       | [] => silent
       | line => {| rows := []; console := [Stm32 line] |}
       end).
Proof.
  unfold has_marker, main_step. intros M D.
  destruct (Py.strip (raw r)) as [|c l] eqn:E; [reflexivity|].
  rewrite M, D. reflexivity.
Qed.

(** A data row is never the header row: its fields are numeric and
    [AccX] is not. *)
Lemma data_row_not_header (stamp : pystr) (line : pystr) (data : list pystr) :
  clean_csv_line db line = Some data -> stamp :: data <> header_row.
Proof.
  intros C E. apply clean_csv_line_sound in C. destruct C as (_ & F).
  injection E as _ ->. inversion F as [|? ? Hx _]. discriminate Hx.
Qed.

Lemma header_rows_header : header_rows [header_row] = 1.
Proof. unfold header_rows. rewrite count_occ_cons_eq; reflexivity. Qed.

Lemma header_rows_other (row : list pystr) :
  row <> header_row -> header_rows [row] = 0.
Proof.
  intros H. unfold header_rows. rewrite count_occ_cons_neq; trivial.
Qed.

(** What one line does to the header flag and to the number of header
    rows. *)
Lemma main_step_header (st : Session) (r : Reading) :
  header_written (fst (main_step db st r))
  = header_written st || has_marker r
  /\ header_rows (rows (snd (main_step db st r)))
     = if negb (header_written st) && has_marker r then 1 else 0.
Proof.
  destruct (has_marker r) eqn:M.
  - destruct (header_written st) eqn:W.
    + rewrite main_step_repeated_header by assumption. simpl.
      rewrite W. split; reflexivity.
    + rewrite main_step_first_header by assumption. simpl.
      split; [reflexivity | apply header_rows_header].
  - rewrite orb_false_r, andb_false_r.
    destruct (is_csv_data_line db (Py.strip (raw r))) eqn:D.
    + destruct (clean_csv_line db (Py.strip (raw r))) as [data|] eqn:C.
      * rewrite (main_step_record st r data) by assumption.
        pose proof (data_row_not_header (now_iso r) _ _ C) as NE.
        destruct (summary_interval <=? _)%Z; simpl;
          (split; [reflexivity | apply header_rows_other; assumption]).
      * rewrite main_step_parse_error by assumption. split; reflexivity.
    + rewrite main_step_other by assumption. simpl.
      split; [reflexivity|]. destruct (Py.strip (raw r)); reflexivity.
Qed.

Lemma header_rows_app (a b : list (list pystr)) :
  header_rows (a ++ b) = header_rows a + header_rows b.
Proof. apply count_occ_app. Qed.

(** The loop writes the header row at the first line that has the marker,
    if none was written before, and never again. *)
Lemma main_loop_header_rows
      (input : list Reading) (st : Session) (out : Effect) :
  header_rows (rows (snd (main_loop db st out input)))
  = header_rows (rows out)
    + if negb (header_written st) && existsb has_marker input then 1 else 0.
Proof.
  revert st out. induction input as [|r more IH]; intros st out; simpl.
  - rewrite andb_false_r. lia.
  - pose proof (main_step_header st r) as (W & H).
    destruct (main_step db st r) as [st' e]. simpl in W, H.
    rewrite IH. simpl. rewrite header_rows_app, H, W.
    destruct (header_written st), (has_marker r); simpl; lia.
Qed.

Lemma main_loop_app (a b : list Reading) (st : Session) (out : Effect) :
  main_loop db st out (a ++ b)
  = main_loop db (fst (main_loop db st out a)) (snd (main_loop db st out a)) b.
Proof.
  revert st out. induction a as [|r a IH]; intros st out; simpl;
    [reflexivity|].
  destruct (main_step db st r) as [st' e]. apply IH.
Qed.

Lemma main_loop_header_flag
      (input : list Reading) (st : Session) (out : Effect) :
  header_written (fst (main_loop db st out input))
  = header_written st || existsb has_marker input.
Proof.
  revert st out. induction input as [|r more IH]; intros st out; simpl.
  - rewrite orb_false_r. reflexivity.
  - pose proof (main_step_header st r) as (W & _).
    destruct (main_step db st r) as [st' e]. simpl in W.
    rewrite IH, W, orb_assoc. reflexivity.
Qed.

Lemma effect_app_silent (out : Effect) :
  {| rows := rows out ++ rows silent;
     console := console out ++ console silent |} = out.
Proof. destruct out. simpl. rewrite !app_nil_r. reflexivity. Qed.

Lemma marked_input (input : list Reading) :
  Exists (fun r => Py.contains header_marker (raw r) = true) input ->
  existsb has_marker input = true.
Proof.
  intros H. apply existsb_exists. apply Exists_exists in H.
  destruct H as (r & I & M). exists r. split; [assumption|].
  apply (marker_in_clean (raw r) M).
Qed.

(** C4. Whatever lines the loop processes, if one or more of them contain
    the header marker then exactly one header row ([Timestamp] before the
    21 field names) is among the rows written; a further line with the
    marker is dropped: the state, the rows and the console are as if it
    had not been read. *)
Theorem header_row_written_once (t0 : Z) (input : list Reading) :
  Exists (fun r => Py.contains header_marker (raw r) = true) input ->
  header_rows (rows (snd (run db t0 input))) = 1
  /\ forall r, Py.contains header_marker (raw r) = true ->
               run db t0 (input ++ [r]) = run db t0 input.
Proof.
  intros H. apply marked_input in H. unfold run. split.
  - rewrite main_loop_header_rows, H. reflexivity.
  - intros r M. rewrite main_loop_app.
    pose proof (main_loop_header_flag input (initial t0) silent) as W.
    rewrite H, orb_true_r in W.
    destruct (main_loop db (initial t0) silent input) as [st out].
    simpl in *. rewrite main_step_repeated_header.
    + rewrite effect_app_silent. reflexivity.
    + apply (marker_in_clean (raw r) M).
    + assumption.
Qed.

(** The decision of [is_csv_data_line] (Noise, Candidate or Unrecognized)
    depends on the line only through its trimmed, control-stripped text;
    the header test reads the trimmed line before the control characters
    are removed, and with that test agreeing two lines of the same cleaned
    text are classified alike. *)
Theorem classification_after_cleaning (l1 l2 : pystr) :
  clean l1 = clean l2 ->
  is_csv_data_line db l1 = is_csv_data_line db l2
  /\ (Py.contains header_marker l1 = Py.contains header_marker l2 ->
      classify db l1 = classify db l2).
Proof.
  intros E.
  assert (D : is_csv_data_line db l1 = is_csv_data_line db l2).
  { unfold is_csv_data_line. rewrite E. reflexivity. }
  split; [assumption|]. intros M. unfold classify. rewrite M, E, D.
  reflexivity.
Qed.

(** Lines 163-170 as they are written: after a line that yields a record,
    and only then, the loop counts the record and tests whether 15 time
    units have passed since [last_summary_time]; if so it prints one
    summary with the counter, this record included, and resets the counter
    to zero and the time to the current time; any other line prints no
    summary and leaves the counter and the time as they were. *)
Theorem summary_after_record_only (st : Session) (r : Reading) :
  let line := Py.strip (raw r) in
  (forall data,
      classify db line = Candidate ->
      clean_csv_line db line = Some data ->
      main_step db st r =
      if (15 <=? current_time r - last_summary_time st)%Z
      then ({| header_written := header_written st;
               csv_message_count := 0;
               last_summary_time := current_time r |},
            {| rows := [now_iso r :: data];
               console := [Summary (csv_message_count st + 1)] |})
      else ({| header_written := header_written st;
               csv_message_count := csv_message_count st + 1;
               last_summary_time := last_summary_time st |},
            {| rows := [now_iso r :: data]; console := [] |}))
  /\ (classify db line <> Candidate \/ clean_csv_line db line = None ->
      csv_message_count (fst (main_step db st r)) = csv_message_count st
      /\ last_summary_time (fst (main_step db st r)) = last_summary_time st
      /\ forall c, ~ In (Summary c) (console (snd (main_step db st r)))).
Proof.
  cbv zeta. split.
  - intros data K C. apply classify_candidate in K. destruct K as (M & D).
    apply main_step_record; assumption.
  - intros H.
    destruct (has_marker r) eqn:M.
    { destruct (header_written st) eqn:W.
      - rewrite main_step_repeated_header by assumption.
        repeat split; auto.
      - rewrite main_step_first_header by assumption. simpl.
        repeat split; auto. intros c [F|[]]. discriminate. }
    destruct (is_csv_data_line db (Py.strip (raw r))) eqn:D.
    + destruct H as [H|H].
      * exfalso. apply H. apply classify_candidate. auto.
      * rewrite main_step_parse_error by assumption. simpl.
        repeat split; auto. intros c [F|[]]. discriminate.
    + rewrite main_step_other by assumption. simpl.
      repeat split; auto.
      destruct (Py.strip (raw r)) as [|x l]; simpl; intros k F;
        [assumption | destruct F as [F|[]]; discriminate].
Qed.

(** C7. When a Candidate line yields no record, the step prints the
    parse error and nothing else: no row is written, and [header_written],
    [csv_message_count] and [last_summary_time] keep their values; the
    loop goes on with the next line. *)
Theorem parse_error_changes_nothing
        (st : Session) (r : Reading) (out : Effect) (more : list Reading) :
  let line := Py.strip (raw r) in
  classify db line = Candidate ->
  clean_csv_line db line = None ->
  main_step db st r = (st, {| rows := []; console := [ParseError line] |})
  /\ main_loop db st out (r :: more)
     = main_loop db st
         {| rows := rows out; console := console out ++ [ParseError line] |}
         more.
Proof.
  cbv zeta. intros K C. apply classify_candidate in K. destruct K as (M & D).
  pose proof (main_step_parse_error st r M D C) as S.
  split; [assumption|]. simpl. rewrite S. simpl. rewrite app_nil_r.
  reflexivity.
Qed.

(** C10. A line whose cleaned comma split has fewer than 21 parts yields
    [None]; so a Candidate line of 15 to 20 parts always ends as a parse
    error and writes no row. *)
Theorem short_candidate_is_parse_error :
  (forall line,
      length (Py.split comma (clean line)) < 21 ->
      clean_csv_line db line = None)
  /\ (forall st r,
        let line := Py.strip (raw r) in
        classify db line = Candidate ->
        15 <= length (Py.split comma (clean line)) <= 20 ->
        main_step db st r
        = (st, {| rows := []; console := [ParseError line] |})).
Proof.
  assert (S : forall line,
             length (Py.split comma (clean line)) < 21 ->
             clean_csv_line db line = None).
  { intros line H. apply clean_csv_line_short.
    unfold csv_parts. rewrite length_map, expected_header_length.
    assumption. }
  split; [assumption|]. cbv zeta. intros st r K B.
  apply classify_candidate in K. destruct K as (M & D).
  apply main_step_parse_error; trivial. apply S. lia.
Qed.

End SessionFacts.

(** ** More on the builtins *)

Lemma lstrip_all_space (s : pystr) :
  forallb Py.isspace s = true -> Py.lstrip s = [].
Proof.
  induction s as [|c s IH]; simpl; [reflexivity|].
  rewrite andb_true_iff. intros (Hc & Hs). rewrite Hc. apply IH, Hs.
Qed.

Lemma lstrip_idempotent (s : pystr) : Py.lstrip (Py.lstrip s) = Py.lstrip s.
Proof.
  induction s as [|c s IH]; simpl; [reflexivity|].
  destruct (Py.isspace c) eqn:E; [assumption|]. simpl. rewrite E.
  reflexivity.
Qed.

Lemma rstrip_cons_nonspace (c : codepoint) (s : pystr) :
  Py.isspace c = false -> Py.rstrip (c :: s) = c :: Py.rstrip s.
Proof. intros H. simpl. rewrite H. destruct (Py.rstrip s); reflexivity. Qed.

Lemma rstrip_cons_space (c : codepoint) (s : pystr) :
  Py.isspace c = true ->
  Py.rstrip (c :: s) = match Py.rstrip s with [] => [] | r => c :: r end.
Proof. intros H. simpl. rewrite H. reflexivity. Qed.

Lemma rstrip_idempotent (s : pystr) : Py.rstrip (Py.rstrip s) = Py.rstrip s.
Proof.
  induction s as [|c s IH]; [reflexivity|].
  destruct (Py.isspace c) eqn:E.
  - rewrite (rstrip_cons_space c s E).
    destruct (Py.rstrip s) as [|x r] eqn:R; [reflexivity|].
    rewrite (rstrip_cons_space c (x :: r) E), IH. reflexivity.
  - rewrite (rstrip_cons_nonspace c s E), (rstrip_cons_nonspace c _ E), IH.
    reflexivity.
Qed.

Lemma lstrip_cons_space (c : codepoint) (s : pystr) :
  Py.isspace c = true -> Py.lstrip (c :: s) = Py.lstrip s.
Proof. intros H. simpl. rewrite H. reflexivity. Qed.

Lemma lstrip_cons_nonspace (c : codepoint) (s : pystr) :
  Py.isspace c = false -> Py.lstrip (c :: s) = c :: s.
Proof. intros H. simpl. rewrite H. reflexivity. Qed.

(** The two ends are trimmed independently. *)
Lemma lstrip_rstrip (s : pystr) :
  Py.lstrip (Py.rstrip s) = Py.rstrip (Py.lstrip s).
Proof.
  induction s as [|c s IH]; [reflexivity|].
  destruct (Py.isspace c) eqn:E.
  - rewrite (rstrip_cons_space c s E), (lstrip_cons_space c s E), <- IH.
    destruct (Py.rstrip s) as [|x r]; [reflexivity|].
    apply lstrip_cons_space. assumption.
  - rewrite (rstrip_cons_nonspace c s E), (lstrip_cons_nonspace c s E).
    rewrite (lstrip_cons_nonspace c _ E), (rstrip_cons_nonspace c s E).
    reflexivity.
Qed.

Lemma strip_idempotent (s : pystr) : Py.strip (Py.strip s) = Py.strip s.
Proof.
  unfold Py.strip.
  rewrite (lstrip_rstrip (Py.lstrip s)), lstrip_idempotent.
  apply rstrip_idempotent.
Qed.

Lemma lstrip_split (s : pystr) :
  exists a, s = a ++ Py.lstrip s /\ forallb Py.isspace a = true.
Proof.
  induction s as [|c s (a & E & A)]; simpl.
  - exists []. split; reflexivity.
  - destruct (Py.isspace c) eqn:C.
    + exists (c :: a). simpl. rewrite C, A. split; [congruence | reflexivity].
    + exists []. split; reflexivity.
Qed.

Lemma rstrip_split (s : pystr) :
  exists b, s = Py.rstrip s ++ b /\ forallb Py.isspace b = true.
Proof.
  induction s as [|c s (b & E & B)].
  - exists []. split; reflexivity.
  - destruct (Py.isspace c) eqn:C.
    + rewrite (rstrip_cons_space c s C).
      destruct (Py.rstrip s) as [|x r].
      * exists (c :: b). simpl in *. rewrite C, B.
        split; [congruence | reflexivity].
      * exists b. simpl in *. split; [congruence | assumption].
    + rewrite (rstrip_cons_nonspace c s C). exists b.
      simpl. split; [congruence | assumption].
Qed.

(** [strip] removes a run of white space at each end and nothing else. *)
Lemma strip_split (s : pystr) :
  exists a b, s = a ++ Py.strip s ++ b
              /\ forallb Py.isspace a = true
              /\ forallb Py.isspace b = true.
Proof.
  destruct (lstrip_split s) as (a & Ea & A).
  destruct (rstrip_split (Py.lstrip s)) as (b & Eb & B).
  exists a, b. unfold Py.strip. rewrite <- Eb. auto.
Qed.

Lemma strip_all_space (s : pystr) :
  forallb Py.isspace s = true -> Py.strip s = [].
Proof.
  intros H. unfold Py.strip. rewrite (lstrip_all_space s H). reflexivity.
Qed.

Lemma strip_incl (s : pystr) (c : codepoint) : In c (Py.strip s) -> In c s.
Proof.
  destruct (strip_split s) as (a & b & E & _). intros H. rewrite E.
  apply in_or_app. right. apply in_or_app. left. assumption.
Qed.

Lemma contains_strip (p s : pystr) :
  Py.contains p (Py.strip s) = true -> Py.contains p s = true.
Proof.
  rewrite !contains_spec. intros (x & y & E).
  destruct (strip_split s) as (a & b & Es & _).
  exists (a ++ x), (y ++ b). rewrite Es at 1. rewrite E.
  rewrite <- !app_assoc. reflexivity.
Qed.

(** The parts of a split have no separator and only characters of the
    text. *)
Lemma split_parts (sep : codepoint) (P : codepoint -> bool) (s : pystr) :
  forallb P s = true ->
  Forall (fun p => forallb P p = true
                   /\ forallb (fun c => negb (c =? sep)%N) p = true)
         (Py.split sep s).
Proof.
  induction s as [|c s IH]; simpl.
  - intros _. repeat constructor.
  - rewrite andb_true_iff. intros (Hc & Hs). specialize (IH Hs).
    destruct (N.eqb_spec c sep) as [->|Hne].
    + constructor; [split; reflexivity | assumption].
    + destruct (Py.split sep s) as [|p ps]; [repeat constructor|].
      * simpl. rewrite Hc. reflexivity.
      * simpl. apply N.eqb_neq in Hne. rewrite Hne. reflexivity.
      * inversion IH as [|? ? (Hp & Hn) Hps]; subst.
        constructor; [|assumption]. simpl.
        apply N.eqb_neq in Hne. rewrite Hc, Hp, Hn, Hne. split; reflexivity.
Qed.

Lemma sub_control_clean (s : pystr) :
  forallb (fun c => negb (Py.is_control c)) (Py.sub_control s) = true.
Proof.
  apply forallb_forall. intros c H. apply filter_In in H. tauto.
Qed.

(** ** More on the extractor, the classifier and the loop *)

Section MoreEngineFacts.

Variable db : Py.UnicodeDB.

Lemma clean_strip (raw_line : pystr) :
  clean (Py.strip raw_line) = clean raw_line.
Proof. unfold clean. rewrite strip_idempotent. reflexivity. Qed.

Lemma marker_strip (raw_line : pystr) :
  Py.contains header_marker (Py.strip raw_line)
  = Py.contains header_marker raw_line.
Proof.
  destruct (Py.contains header_marker raw_line) eqn:M.
  - apply (marker_in_clean raw_line M).
  - destruct (Py.contains header_marker (Py.strip raw_line)) eqn:S;
      [|reflexivity].
    apply contains_strip in S. congruence.
Qed.

(** X1. [main] strips the line at line 138 and the two functions strip it
    again: the header test, [is_csv_data_line] and [clean_csv_line] decide
    on the stripped line as they would on the line as read. *)
Theorem stripped_line_same_decisions (raw_line : pystr) :
  Py.contains header_marker (Py.strip raw_line)
  = Py.contains header_marker raw_line
  /\ is_csv_data_line db (Py.strip raw_line) = is_csv_data_line db raw_line
  /\ clean_csv_line db (Py.strip raw_line) = clean_csv_line db raw_line.
Proof.
  split; [|split].
  - apply marker_strip.
  - unfold is_csv_data_line. rewrite clean_strip. reflexivity.
  - unfold clean_csv_line, csv_parts. rewrite clean_strip. reflexivity.
Qed.

(** X2. A line of white space only (the empty line too) is skipped: no
    row, no message, the state as it was. *)
Theorem blank_line_skipped (st : Session) (r : Reading) :
  forallb Py.isspace (raw r) = true ->
  main_step db st r = (st, silent).
Proof.
  intros H. unfold main_step. rewrite (strip_all_space (raw r) H).
  reflexivity.
Qed.

Lemma csv_parts_plain (line : pystr) :
  Forall (fun t => plain_token t = true) (csv_parts line).
Proof.
  unfold csv_parts, clean.
  pose proof (split_parts comma (fun c => negb (Py.is_control c)) _
                (sub_control_clean (Py.strip line))) as F.
  induction F as [|p ps (Hc & Hn) _ IH]; simpl; constructor; [|assumption].
  unfold plain_token. apply andb_true_iff. split.
  - apply forallb_forall. intros c I. apply strip_incl in I.
    rewrite forallb_forall in Hc, Hn. rewrite (Hc c I), (Hn c I).
    reflexivity.
  - apply pystr_eqb_eq. apply strip_idempotent.
Qed.

Lemma record_in_parts (line : pystr) (record : list pystr) (t : pystr) :
  clean_csv_line db line = Some record -> In t record ->
  In t (csv_parts line).
Proof.
  intros H I. apply clean_csv_line_some in H. destruct H as (i & _ & -> & _).
  rewrite <- (firstn_skipn i (csv_parts line)).
  apply in_or_app. right.
  rewrite <- (firstn_skipn (length EXPECTED_HEADER)
                           (skipn i (csv_parts line))).
  apply in_or_app. left. assumption.
Qed.

(** X3. Every field of an extracted record is ready to be written: it is
    not empty, has no comma and no control character (so no line break),
    and no white space at either end. *)
Theorem record_fields_clean (line : pystr) (record : list pystr) :
  clean_csv_line db line = Some record ->
  Forall (fun t => t <> [] /\ plain_token t = true) record.
Proof.
  intros H. apply Forall_forall. intros t I. split.
  - intros ->. apply clean_csv_line_sound in H. destruct H as (_ & F).
    rewrite Forall_forall in F. specialize (F [] I). discriminate F.
  - pose proof (csv_parts_plain line) as P. rewrite Forall_forall in P.
    apply P. apply (record_in_parts line record t H I).
Qed.

(** X4. Stray tokens before the frame and anything after it are dropped:
    when the parts are non-numeric tokens, then [N] numeric ones, then any
    further parts, the record is the [N] numeric ones. *)
Theorem frame_between_stray_parts
        (line : pystr) (junk nums extra : list pystr) :
  csv_parts line = junk ++ nums ++ extra ->
  Forall (fun t => is_numeric db t = false) junk ->
  Forall (fun t => is_numeric db t = true) nums ->
  length nums = length EXPECTED_HEADER ->
  clean_csv_line db line = Some nums.
Proof.
  intros Hparts Hjunk Hnums Hlen.
  apply clean_csv_line_some. exists (length junk). rewrite Hparts.
  assert (Hskip : skipn (length junk) (junk ++ nums ++ extra) = nums ++ extra).
  { rewrite skipn_app, skipn_all, Nat.sub_diag. reflexivity. }
  assert (Hfirst : firstn (length EXPECTED_HEADER) (nums ++ extra) = nums).
  { rewrite <- Hlen, firstn_app, firstn_all, Nat.sub_diag, firstn_0.
    apply app_nil_r. }
  split; [|split].
  - unfold run_reaches. rewrite Hskip, greedy_run_firstn, Hfirst.
    rewrite numeric_run_of_numeric by assumption.
    rewrite Hlen. apply Nat.eqb_refl.
  - rewrite Hskip, Hfirst. reflexivity.
  - intros j Hj. unfold run_reaches.
    destruct (skipn_in_junk junk (nums ++ extra) j Hj) as (p & rest & E & I).
    rewrite E, greedy_run_firstn, expected_header_length.
    rewrite firstn_cons, numeric_run_stops; [reflexivity|].
    rewrite Forall_forall in Hjunk. apply Hjunk. assumption.
Qed.

Lemma numeric_count_csv_parts (line : pystr) :
  numeric_count db (Py.split comma (clean line))
  = length (filter (is_numeric db) (csv_parts line)).
Proof.
  unfold numeric_count, csv_parts.
  induction (Py.split comma (clean line)) as [|p ps IH]; simpl;
    [reflexivity|].
  destruct (is_numeric db (Py.strip p)); simpl; rewrite IH; reflexivity.
Qed.

Lemma filter_all (A : Type) (f : A -> bool) (l : list A) :
  Forall (fun x => f x = true) l -> filter f l = l.
Proof.
  induction 1 as [|x l Hx _ IH]; simpl; [reflexivity|].
  rewrite Hx, IH. reflexivity.
Qed.

Lemma record_numeric_count (line : pystr) (record : list pystr) :
  clean_csv_line db line = Some record ->
  length EXPECTED_HEADER <= numeric_count db (Py.split comma (clean line)).
Proof.
  intros H. pose proof (clean_csv_line_sound db line record H) as (L & F).
  apply clean_csv_line_some in H. destruct H as (i & _ & E & _).
  rewrite numeric_count_csv_parts.
  rewrite <- (firstn_skipn i (csv_parts line)).
  rewrite <- (firstn_skipn (length EXPECTED_HEADER)
                           (skipn i (csv_parts line))).
  rewrite <- E, !filter_app, !length_app, (filter_all _ _ _ F). lia.
Qed.

(** X5. The 80% test never hides a frame: a keyword-free line of at most
    25 parts from which [clean_csv_line] can extract a record is accepted
    by [is_csv_data_line]. *)
Theorem extractable_line_is_accepted (line : pystr) (record : list pystr) :
  has_noise_keyword db (clean line) = false ->
  length (Py.split comma (clean line)) <= 25 ->
  clean_csv_line db line = Some record ->
  is_csv_data_line db line = true.
Proof.
  intros K B H.
  pose proof (record_numeric_count line record H) as C.
  pose proof (numeric_count_le db (Py.split comma (clean line))) as U.
  rewrite expected_header_length in C.
  rewrite is_csv_data_line_in_band by (trivial; lia).
  apply Nat.leb_le. lia.
Qed.

(** *** What the loop keeps *)

Lemma header_rows_le (written : list (list pystr)) :
  header_rows written <= length written.
Proof. unfold header_rows. apply count_occ_bound. Qed.

Lemma data_rows_app (a b : list (list pystr)) :
  data_rows (a ++ b) = data_rows a + data_rows b.
Proof.
  unfold data_rows. rewrite header_rows_app, length_app.
  pose proof (header_rows_le a). pose proof (header_rows_le b). lia.
Qed.

Lemma summary_total_app (a b : list Console) :
  summary_total (a ++ b) = (summary_total a + summary_total b)%Z.
Proof.
  induction a as [|m a IH]; simpl; [reflexivity|].
  destruct m; rewrite IH; lia.
Qed.

(** One line: a data row is either added to the counter or reported by the
    summary that resets it. *)
Lemma data_rows_none : data_rows [] = 0.
Proof. reflexivity. Qed.

Lemma data_rows_header : data_rows [header_row] = 0.
Proof. unfold data_rows. rewrite header_rows_header. reflexivity. Qed.

Lemma data_rows_other (row : list pystr) :
  row <> header_row -> data_rows [row] = 1.
Proof.
  intros H. unfold data_rows. rewrite (header_rows_other row H). reflexivity.
Qed.

Lemma header_row_length : length header_row = S (length EXPECTED_HEADER).
Proof. reflexivity. Qed.

Lemma main_step_accounting (st : Session) (r : Reading) :
  (Z.of_nat (data_rows (rows (snd (main_step db st r))))
   = summary_total (console (snd (main_step db st r)))
     + csv_message_count (fst (main_step db st r))
     - csv_message_count st)%Z
  /\ ((0 <= csv_message_count st)%Z ->
      (0 <= csv_message_count (fst (main_step db st r)))%Z)
  /\ Forall (fun row => length row = S (length EXPECTED_HEADER))
            (rows (snd (main_step db st r))).
Proof.
  destruct (has_marker r) eqn:M.
  - destruct (header_written st) eqn:W.
    + rewrite main_step_repeated_header by assumption.
      cbn [fst snd rows console silent summary_total].
      rewrite data_rows_none.
      split; [lia|]. split; [trivial | constructor].
    + rewrite main_step_first_header by assumption.
      cbn [fst snd rows console csv_message_count summary_total].
      rewrite data_rows_header.
      split; [lia|]. split; [trivial|].
      constructor; [apply header_row_length | constructor].
  - destruct (is_csv_data_line db (Py.strip (raw r))) eqn:D.
    + destruct (clean_csv_line db (Py.strip (raw r))) as [data|] eqn:C.
      * rewrite (main_step_record db st r data) by assumption.
        pose proof (data_row_not_header db (now_iso r) _ _ C) as NE.
        pose proof (clean_csv_line_sound db _ _ C) as (L & _).
        destruct (summary_interval <=? _)%Z;
          cbn [fst snd rows console csv_message_count summary_total];
          rewrite (data_rows_other _ NE);
          (split; [lia|]); (split; [lia|]);
          (constructor; [cbn [length]; congruence | constructor]).
      * rewrite main_step_parse_error by assumption.
        cbn [fst snd rows console summary_total].
        rewrite data_rows_none.
        split; [lia|]. split; [trivial | constructor].
    + rewrite main_step_other by assumption.
      destruct (Py.strip (raw r));
        cbn [fst snd rows console silent summary_total];
        rewrite data_rows_none;
        (split; [lia|]); (split; [trivial | constructor]).
Qed.

Lemma main_loop_accounting
      (input : list Reading) (st : Session) (out : Effect) :
  (Z.of_nat (data_rows (rows (snd (main_loop db st out input))))
   - summary_total (console (snd (main_loop db st out input)))
   - csv_message_count (fst (main_loop db st out input))
   = Z.of_nat (data_rows (rows out)) - summary_total (console out)
     - csv_message_count st)%Z
  /\ ((0 <= csv_message_count st)%Z ->
      (0 <= csv_message_count (fst (main_loop db st out input)))%Z)
  /\ (Forall (fun row => length row = S (length EXPECTED_HEADER)) (rows out) ->
      Forall (fun row => length row = S (length EXPECTED_HEADER))
             (rows (snd (main_loop db st out input)))).
Proof.
  revert st out. induction input as [|r more IH]; intros st out; simpl.
  - split; [lia|]. split; trivial.
  - pose proof (main_step_accounting st r) as (A & P & F).
    destruct (main_step db st r) as [st' e]. simpl in A, P, F.
    destruct (IH st' {| rows := rows out ++ rows e;
                        console := console out ++ console e |})
      as (A' & P' & F').
    simpl in A', F'. rewrite data_rows_app, summary_total_app in A'.
    split; [lia|]. split; [auto|].
    intros Fo. apply F'. apply Forall_app. split; assumption.
Qed.

(** X6. No record is lost from the counts: the data rows written are as
    many as the summaries printed add up to, plus the counter at the end
    (the count that line 179 prints when the loop is interrupted), which
    is never negative. *)
Theorem records_all_counted (t0 : Z) (input : list Reading) :
  (Z.of_nat (data_rows (rows (snd (run db t0 input))))
   = summary_total (console (snd (run db t0 input)))
     + csv_message_count (fst (run db t0 input)))%Z
  /\ (0 <= csv_message_count (fst (run db t0 input)))%Z.
Proof.
  unfold run.
  destruct (main_loop_accounting input (initial t0) silent) as (A & P & _).
  simpl in A, P. split; [lia | apply P; lia].
Qed.

(** X7. Every row written has 22 fields: the time stamp, or the word
    [Timestamp], and 21 more. *)
Theorem rows_have_22_fields (t0 : Z) (input : list Reading) :
  Forall (fun row => length row = 22) (rows (snd (run db t0 input))).
Proof.
  unfold run.
  destruct (main_loop_accounting input (initial t0) silent) as (_ & _ & F).
  apply F. constructor.
Qed.

(** X8. The header row is written at most once, and exactly when some
    line read contains the marker; [header_written] tells which at the
    end.  Without such a line the data rows are written under no header. *)
Theorem header_row_iff_marker (t0 : Z) (input : list Reading) :
  header_rows (rows (snd (run db t0 input)))
  = (if existsb (fun r => Py.contains header_marker (raw r)) input
     then 1 else 0)
  /\ header_written (fst (run db t0 input))
     = existsb (fun r => Py.contains header_marker (raw r)) input.
Proof.
  assert (E : existsb has_marker input
              = existsb (fun r => Py.contains header_marker (raw r)) input).
  { induction input as [|r more IH]; simpl; [reflexivity|].
    rewrite IH. f_equal. apply marker_strip. }
  unfold run. rewrite main_loop_header_rows, main_loop_header_flag, E.
  split; reflexivity.
Qed.

End MoreEngineFacts.

(** ** The command relay *)

Lemma encode_app (a b : pystr) :
  Utf8.encode (a ++ b)
  = match Utf8.encode a, Utf8.encode b with
    | Some x, Some y => Some (x ++ y)
    | _, _ => None
    end.
Proof.
  induction a as [|c a IH]; simpl.
  - destruct (Utf8.encode b); reflexivity.
  - rewrite IH. destruct (Utf8.encode_char c) as [x|]; [|reflexivity].
    destruct (Utf8.encode a) as [xs|]; [|reflexivity].
    destruct (Utf8.encode b) as [ys|]; [|reflexivity].
    rewrite app_assoc. reflexivity.
Qed.

Lemma encode_with_cr (command : pystr) :
  Utf8.encode (command ++ [13%N])
  = option_map (fun bytes => bytes ++ [13%N]) (Utf8.encode command).
Proof.
  rewrite encode_app. destruct (Utf8.encode command); reflexivity.
Qed.

(** An ASCII text is encoded as itself. *)
Lemma encode_ascii (s : pystr) :
  forallb Py.is_ascii s = true -> Utf8.encode s = Some s.
Proof.
  induction s as [|c s IH]; simpl; [reflexivity|].
  rewrite andb_true_iff. intros (Hc & Hs). rewrite (IH Hs).
  unfold Utf8.encode_char. unfold Py.is_ascii in Hc. rewrite Hc.
  reflexivity.
Qed.

Lemma encode_char_bytes (c : codepoint) (bytes : list N) :
  Utf8.encode_char c = Some bytes ->
  Forall (fun b => (b < 256)%N) bytes /\ 1 <= length bytes <= 4.
Proof.
  unfold Utf8.encode_char.
  assert (L : forall x, (N.land x 63 < 64)%N).
  { intros x. change 63%N with (N.ones 6). rewrite N.land_ones.
    apply N.mod_lt. discriminate. }
  assert (S6 : (c < 2048 -> N.shiftr c 6 < 32)%N).
  { intros H. rewrite N.shiftr_div_pow2. apply N.Div0.div_lt_upper_bound.
    change (2 ^ 6 * 32)%N with 2048%N. assumption. }
  assert (S12 : (c < 65536 -> N.shiftr c 12 < 16)%N).
  { intros H. rewrite N.shiftr_div_pow2. apply N.Div0.div_lt_upper_bound.
    change (2 ^ 12 * 16)%N with 65536%N. assumption. }
  assert (S18 : (c < 1114112 -> N.shiftr c 18 < 8)%N).
  { intros H. rewrite N.shiftr_div_pow2. apply N.Div0.div_lt_upper_bound.
    change (2 ^ 18 * 8)%N with 2097152%N. lia. }
  pose proof (L c) as L0. pose proof (L (N.shiftr c 6)) as L6.
  pose proof (L (N.shiftr c 12)) as L12.
  generalize dependent (N.land c 63).
  generalize dependent (N.land (N.shiftr c 6) 63).
  generalize dependent (N.land (N.shiftr c 12) 63).
  generalize dependent (N.shiftr c 6).
  generalize dependent (N.shiftr c 12).
  generalize dependent (N.shiftr c 18).
  intros h18 S18 h12 S12 h6 S6 l12 L12 l6 L6 l0 L0.
  destruct (N.ltb_spec c 128);
    [|destruct (N.ltb_spec c 2048);
      [|destruct (N.ltb_spec c 65536);
        [destruct ((55296 <=? c) && (c <=? 57343))%N; [discriminate|]
        |destruct (N.ltb_spec c 1114112); [|discriminate]]]];
    intros E;
    match type of E with
    | Some ?l = _ => assert (E' : l = bytes) by congruence
    end;
    subst bytes; (split; [|cbn [length]; lia]);
    repeat (apply Forall_cons; [lia|]); apply Forall_nil.
Qed.

(** What [encode] returns is a list of bytes, one to four for each
    character; it fails exactly on a text with a surrogate (or a number
    beyond U+10FFFF). *)
Lemma encode_bytes (s : pystr) :
  (forall bytes,
      Utf8.encode s = Some bytes ->
      Forall (fun b => (b < 256)%N) bytes
      /\ length s <= length bytes <= 4 * length s)
  /\ (Utf8.encode s = None <->
      exists c, In c s
                /\ ((55296 <= c <= 57343)%N \/ (1114112 <= c)%N)).
Proof.
  induction s as [|c s (IHb & IHn)]; simpl.
  - split.
    + intros bytes E. injection E as <-. split; [constructor | simpl; lia].
    + split; [discriminate | intros (c & [] & _)].
  - split.
    + intros bytes E.
      destruct (Utf8.encode_char c) as [b|] eqn:Ec; [|discriminate].
      destruct (Utf8.encode s) as [bs|]; [|discriminate].
      injection E as <-.
      destruct (encode_char_bytes c b Ec) as (Fb & Lb).
      destruct (IHb bs eq_refl) as (Fs & Ls).
      split; [apply Forall_app; split; assumption|].
      rewrite length_app. lia.
    + assert (C : Utf8.encode_char c = None
                  <-> (55296 <= c <= 57343)%N \/ (1114112 <= c)%N).
      { unfold Utf8.encode_char.
        destruct (N.ltb_spec c 128); [split; [discriminate | lia]|].
        destruct (N.ltb_spec c 2048); [split; [discriminate | lia]|].
        destruct (N.ltb_spec c 65536).
        - destruct (N.leb_spec 55296 c); destruct (N.leb_spec c 57343);
            simpl; split; try discriminate; try lia; auto.
        - destruct (N.ltb_spec c 1114112); split;
            try discriminate; try lia; auto. }
      split.
      * intros E. destruct (Utf8.encode_char c) as [b|] eqn:Ec.
        -- destruct (Utf8.encode s) as [bs|]; [discriminate|].
           destruct (proj1 IHn eq_refl) as (x & I & Hx).
           exists x. split; [right; assumption | assumption].
        -- exists c. split; [left; reflexivity | apply C; reflexivity].
      * intros (x & [<- | I] & Hx).
        -- apply C in Hx. rewrite Hx. reflexivity.
        -- destruct (Utf8.encode_char c); [|reflexivity].
           rewrite (proj2 IHn); [reflexivity|]. exists x. auto.
Qed.

Section RelayFacts.

Variable db : Py.UnicodeDB.

Lemma command_loop_ending (k : Keyboard) (after : list Keyboard) :
  ends_relay db k = true ->
  command_loop db (k :: after) = command_loop db [k].
Proof.
  destruct k as [text ok| |]; simpl; intros E;
    [rewrite E; reflexivity | discriminate | reflexivity].
Qed.

Lemma command_loop_app_ending (before after : list Keyboard) (k : Keyboard) :
  ends_relay db k = true ->
  command_loop db (before ++ k :: after) = command_loop db (before ++ [k]).
Proof.
  intros E. induction before as [|b before IH].
  - apply command_loop_ending. assumption.
  - simpl. destruct b as [text ok| |]; [|rewrite IH; reflexivity|reflexivity].
    destruct (is_quit db (Py.strip text)); [reflexivity|].
    destruct (Py.strip text); [assumption|].
    destruct (Utf8.encode _); rewrite IH; reflexivity.
Qed.

(** X14. The relay ends at the first [quit] or interrupt: whatever is
    typed after it is never read, so nothing more is written to the port
    or printed. *)
Theorem nothing_after_quit (before after : list Keyboard) (k : Keyboard) :
  ends_relay db k = true ->
  command_sender db (before ++ k :: after)
  = command_sender db (before ++ [k])
  /\ waiting (command_sender db (before ++ k :: after)) = false.
Proof.
  intros E. unfold command_sender.
  rewrite (command_loop_app_ending before after k E).
  split; [reflexivity|]. simpl. clear after.
  induction before as [|b before IH]; simpl.
  - destruct k as [text ok| |]; simpl in *;
      [rewrite E; reflexivity | discriminate | reflexivity].
  - destruct b as [text ok| |]; [|assumption|reflexivity].
    destruct (is_quit db (Py.strip text)); [reflexivity|].
    destruct (Py.strip text); [assumption|].
    destruct (Utf8.encode _); assumption.
Qed.

(** X15. Only [quit] and the interrupt end the relay: after any events
    without them it still waits for input, whatever failed on the way
    (the input, the encoding or the write). *)
Theorem relay_waits_unless_ended (keys : list Keyboard) :
  waiting (command_sender db keys) = negb (existsb (ends_relay db) keys).
Proof.
  unfold command_sender. simpl.
  induction keys as [|k keys IH]; simpl; [reflexivity|].
  destruct k as [text ok| |]; simpl; [|assumption|reflexivity].
  destruct (is_quit db (Py.strip text)); [reflexivity|]. simpl.
  destruct (Py.strip text); [assumption|].
  destruct (Utf8.encode _); assumption.
Qed.

(** X16. Every payload handed to the port is a list of bytes: the UTF-8
    encoding of a line that was typed, stripped, followed by one carriage
    return; the line was not blank and was not [quit].  [SENT] is printed
    only for a command whose payload was handed to the port. *)
Theorem payloads_are_typed_commands (keys : list Keyboard) :
  (forall payload,
      In payload (written (command_sender db keys)) ->
      Forall (fun b => (b < 256)%N) payload
      /\ exists text ok bytes,
           In (Entered text ok) keys
           /\ Py.strip text <> []
           /\ is_quit db (Py.strip text) = false
           /\ Utf8.encode (Py.strip text) = Some bytes
           /\ payload = bytes ++ [13%N])
  /\ (forall command,
        In (Sent command) (relay_console (command_sender db keys)) ->
        exists bytes,
          Utf8.encode command = Some bytes
          /\ In (bytes ++ [13%N]) (written (command_sender db keys))).
Proof.
  assert (P : forall payload,
             In payload (written (command_loop db keys)) ->
             exists text ok bytes,
               In (Entered text ok) keys
               /\ Py.strip text <> []
               /\ is_quit db (Py.strip text) = false
               /\ Utf8.encode (Py.strip text) = Some bytes
               /\ payload = bytes ++ [13%N]).
  { induction keys as [|k keys IHp]; cbn [command_loop written].
    - intros ? [].
    - assert (Later : forall payload,
                 In payload (written (command_loop db keys)) ->
                 exists text ok bytes,
                   In (Entered text ok) (k :: keys)
                   /\ Py.strip text <> []
                   /\ is_quit db (Py.strip text) = false
                   /\ Utf8.encode (Py.strip text) = Some bytes
                   /\ payload = bytes ++ [13%N]).
      { intros payload I. destruct (IHp payload I) as (t & o & b & H & R).
        exists t, o, b. split; [right; assumption | assumption]. }
      destruct k as [text ok| |]; [|exact Later | intros ? []].
      destruct (is_quit db (Py.strip text)) eqn:Q; [intros ? []|].
      destruct (Py.strip text) as [|c command] eqn:S; [exact Later|].
      rewrite encode_with_cr.
      destruct (Utf8.encode (c :: command)) as [bytes|] eqn:U;
        cbn [option_map and_then written app]; [|exact Later].
      intros payload [<- | I]; [|auto].
      exists text, ok, bytes. rewrite S.
      split; [left; reflexivity|]. split; [discriminate|]. auto. }
  unfold command_sender. cbn [and_then written relay_console app].
  split.
  - intros payload I. split; [|auto].
    destruct (P payload I) as (t & o & b & _ & _ & _ & E & ->).
    apply Forall_app. split.
    + apply (proj1 (encode_bytes (Py.strip t)) b E).
    + repeat constructor.
  - clear P. intros command [F | I]; [discriminate F|]. revert I.
    induction keys as [|k keys IHs];
      cbn [command_loop written relay_console]; [intros []|].
    assert (Later : In (Sent command) (relay_console (command_loop db keys)) ->
                    exists bytes,
                      Utf8.encode command = Some bytes
                      /\ In (bytes ++ [13%N])
                            (written (command_loop db keys))) by exact IHs.
    destruct k as [text ok| |].
    + destruct (is_quit db (Py.strip text)) eqn:Q;
        [intros [F | []]; discriminate F|].
      destruct (Py.strip text) as [|c cmd] eqn:S; [exact Later|].
      rewrite encode_with_cr.
      destruct (Utf8.encode (c :: cmd)) as [bytes|] eqn:U;
        cbn [option_map and_then written relay_console app].
      * intros [F | I].
        -- destruct ok; [|discriminate F]. injection F as <-.
           exists bytes. split; [assumption | left; reflexivity].
        -- destruct (Later I) as (b & E & Ib).
           exists b. split; [assumption | right; assumption].
      * intros [F | I]; [discriminate F | auto].
    + cbn [and_then written relay_console app].
      intros [F | I]; [discriminate F | auto].
    + intros [F | []]. discriminate F.
Qed.

(** X17. An ASCII command goes out byte for byte: its characters after
    stripping, then a carriage return; the loop then takes the next
    event, whether the write returned or not. *)
Theorem ascii_command_sent_verbatim
        (text : pystr) (ok : bool) (more : list Keyboard) :
  forallb Py.is_ascii text = true ->
  Py.strip text <> [] ->
  is_quit db (Py.strip text) = false ->
  command_loop db (Entered text ok :: more)
  = and_then [Py.strip text ++ [13%N]]
             [if ok then Sent (Py.strip text) else SendError]
             (command_loop db more).
Proof.
  intros A N Q. simpl. rewrite Q.
  assert (As : forallb Py.is_ascii (Py.strip text) = true).
  { apply forallb_forall. intros c I. apply strip_incl in I.
    rewrite forallb_forall in A. apply A. assumption. }
  destruct (Py.strip text) as [|c command] eqn:S; [congruence|].
  rewrite encode_with_cr, (encode_ascii _ As). reflexivity.
Qed.

End RelayFacts.

(** ** [is_numeric] *)

Ltac n_bool :=
  repeat rewrite ?orb_true_iff, ?andb_true_iff, ?orb_false_iff,
    ?andb_false_iff, ?negb_true_iff, ?negb_false_iff,
    ?N.leb_le, ?N.ltb_lt, ?N.eqb_eq, ?N.leb_gt, ?N.ltb_ge, ?N.eqb_neq in *.

Lemma isspace_low_blankish (c : codepoint) :
  Py.isspace c = true -> (c < 128)%N -> blankish c = true.
Proof.
  unfold Py.isspace, blankish, Py.c_isspace. intros H L. n_bool. lia.
Qed.

Lemma c_lstrip_head (s r : pystr) (x : codepoint) :
  Py.c_lstrip s = x :: r -> Py.c_isspace x = false.
Proof.
  induction s as [|c s IH]; simpl; [discriminate|].
  destruct (Py.c_isspace c) eqn:E; [assumption|].
  intros H. injection H as -> _. assumption.
Qed.

Lemma c_lstrip_forallb (P : codepoint -> bool) (s : pystr) :
  forallb P s = true -> forallb P (Py.c_lstrip s) = true.
Proof.
  induction s as [|c s IH]; simpl; [reflexivity|].
  rewrite andb_true_iff. intros (Hc & Hs).
  destruct (Py.c_isspace c); [auto|]. simpl. rewrite Hc, Hs. reflexivity.
Qed.

Lemma c_rstrip_forallb (P : codepoint -> bool) (s : pystr) :
  forallb P s = true -> forallb P (Py.c_rstrip s) = true.
Proof.
  induction s as [|c s IH]; simpl; [reflexivity|].
  rewrite andb_true_iff. intros (Hc & Hs). specialize (IH Hs).
  destruct (Py.c_rstrip s) as [|x r].
  - destruct (Py.c_isspace c); simpl; [reflexivity|].
    rewrite Hc. reflexivity.
  - simpl in *. rewrite Hc, IH. reflexivity.
Qed.

Lemma c_rstrip_cons (c : codepoint) (s : pystr) :
  Py.c_isspace c = false -> Py.c_rstrip (c :: s) = c :: Py.c_rstrip s.
Proof. intros H. simpl. rewrite H. destruct (Py.c_rstrip s); reflexivity. Qed.

Lemma c_lstrip_fixed (c : codepoint) (s : pystr) :
  Py.c_isspace c = false -> Py.c_lstrip (c :: s) = c :: s.
Proof. intros H. simpl. rewrite H. reflexivity. Qed.

Lemma c_rstrip_fixed (s : pystr) :
  forallb (fun c => negb (Py.c_isspace c)) s = true -> Py.c_rstrip s = s.
Proof.
  induction s as [|c s IH]; [reflexivity|]. simpl forallb.
  rewrite andb_true_iff, negb_true_iff. intros (Hc & Hs).
  rewrite (c_rstrip_cons c s Hc), (IH Hs). reflexivity.
Qed.

Lemma no_underscore (P : codepoint -> bool) (s : pystr) :
  (forall c, P c = true -> (c =? 95)%N = false) ->
  forallb P s = true -> existsb (N.eqb 95) s = false.
Proof.
  intros H. induction s as [|c s IH]; cbn [existsb forallb]; [reflexivity|].
  rewrite andb_true_iff. intros (Hc & Hs). rewrite (IH Hs), orb_false_r.
  rewrite N.eqb_sym. apply H. assumption.
Qed.

Lemma span_digits_app (d rest : pystr) :
  forallb Py.c_isdigit d = true ->
  match rest with [] => True | c :: _ => Py.c_isdigit c = false end ->
  Py.span_digits (d ++ rest) = (d, rest).
Proof.
  intros D R. induction d as [|c d IH]; cbn [app Py.span_digits].
  - destruct rest as [|c rest]; [reflexivity|].
    cbn [Py.span_digits]. rewrite R. reflexivity.
  - cbn [forallb] in D. apply andb_true_iff in D. destruct D as (Hc & Hd).
    rewrite Hc, (IH Hd). reflexivity.
Qed.

Section NumericFacts.

Variable db : Py.UnicodeDB.

Lemma to_ascii_blank (s : pystr) :
  forallb Py.isspace s = true ->
  forallb blankish (Py.to_ascii db s) = true.
Proof.
  intros H. unfold Py.to_ascii.
  destruct (forallb Py.is_ascii s) eqn:A.
  - apply forallb_forall. intros c I.
    rewrite forallb_forall in H, A. specialize (A c I).
    unfold Py.is_ascii in A. apply N.ltb_lt in A.
    apply isspace_low_blankish; auto.
  - clear A. induction s as [|c s IH]; simpl; [reflexivity|].
    simpl in H. apply andb_true_iff in H. destruct H as (Hc & Hs).
    destruct (N.ltb_spec c 127).
    + simpl. rewrite (IH Hs), andb_true_r.
      apply isspace_low_blankish; [assumption | lia].
    + rewrite Hc. simpl. apply (IH Hs).
Qed.

(** X12. A text of white space only (the empty text too) is not numeric:
    an empty field never counts as a number. *)
Theorem blank_is_not_numeric (s : pystr) :
  forallb Py.isspace s = true -> is_numeric db s = false.
Proof.
  intros H. unfold is_numeric, Py.float_parses.
  pose proof (to_ascii_blank s H) as B.
  apply c_lstrip_forallb in B.
  destruct (Py.c_lstrip (Py.to_ascii db s)) as [|x r] eqn:E;
    [reflexivity|].
  pose proof (c_lstrip_head _ _ _ E) as X.
  rewrite (c_rstrip_cons x r X).
  assert (B' : forallb blankish (x :: Py.c_rstrip r) = true).
  { simpl in *. apply andb_true_iff in B. destruct B as (Bx & Br).
    rewrite Bx. apply (c_rstrip_forallb blankish r Br). }
  assert (R : (28 <= x <= 31)%N).
  { simpl in B'. apply andb_true_iff in B'. destruct B' as (Bx & _).
    unfold blankish in Bx. rewrite X in Bx. simpl in Bx. n_bool. lia. }
  rewrite (no_underscore blankish (x :: Py.c_rstrip r)); trivial.
  2:{ intros c. unfold blankish, Py.c_isspace. intros Hc. n_bool. lia. }
  assert (S : Py.drop_sign (x :: Py.c_rstrip r) = x :: Py.c_rstrip r).
  { simpl. replace ((x =? 43) || (x =? 45))%N with false; [reflexivity|].
    symmetry. n_bool. lia. }
  rewrite S. apply orb_false_iff. split.
  - unfold Py.decimal_literal. simpl.
    replace (Py.c_isdigit x) with false
      by (symmetry; unfold Py.c_isdigit; n_bool; lia).
    replace (x =? 46)%N with false by (symmetry; n_bool; lia).
    reflexivity.
  - unfold Py.inf_or_nan. simpl map.
    replace (Py.ascii_lower x) with x
      by (unfold Py.ascii_lower;
          replace ((65 <=? x) && (x <=? 90))%N with false;
          [reflexivity | symmetry; n_bool; lia]).
    change (str "inf") with (105%N :: str "nf").
    change (str "infinity") with (105%N :: str "nfinity").
    change (str "nan") with (110%N :: str "an").
    cbn [pystr_eqb].
    replace (x =? 105)%N with false by (symmetry; n_bool; lia).
    replace (x =? 110)%N with false by (symmetry; n_bool; lia).
    reflexivity.
Qed.

Lemma numeral_parses (sign body : pystr) :
  sign = [] \/ sign = [43%N] \/ sign = [45%N] ->
  forallb (fun c => Py.c_isdigit c || (c =? 46)%N) body = true ->
  match body with [] => False | c :: _ => True end ->
  Py.float_parses db (sign ++ body) = Py.decimal_literal body.
Proof.
  intros Sg B NE.
  assert (P : forallb (fun c => Py.c_isdigit c || (c =? 46) || (c =? 43)
                                || (c =? 45))%N (sign ++ body) = true).
  { rewrite forallb_app. apply andb_true_iff. split.
    - destruct Sg as [->|[->| ->]]; reflexivity.
    - apply forallb_forall. intros c I. rewrite forallb_forall in B.
      rewrite (B c I). reflexivity. }
  assert (Q : forall c,
             (Py.c_isdigit c || (c =? 46) || (c =? 43) || (c =? 45))%N = true ->
             Py.is_ascii c = true /\ Py.c_isspace c = false
             /\ (c =? 95)%N = false).
  { intros c. unfold Py.c_isdigit, Py.is_ascii, Py.c_isspace. intros H.
    n_bool. lia. }
  unfold Py.float_parses, Py.to_ascii.
  replace (forallb Py.is_ascii (sign ++ body)) with true.
  2:{ symmetry. apply forallb_forall. intros c I.
      rewrite forallb_forall in P. apply (Q c (P c I)). }
  assert (F : Py.c_rstrip (Py.c_lstrip (sign ++ body)) = sign ++ body).
  { assert (NS : forallb (fun c => negb (Py.c_isspace c)) (sign ++ body)
                 = true).
    { apply forallb_forall. intros c I. rewrite forallb_forall in P.
      destruct (Q c (P c I)) as (_ & -> & _). reflexivity. }
    destruct (sign ++ body) as [|c t] eqn:E; [reflexivity|].
    rewrite c_lstrip_fixed.
    - apply c_rstrip_fixed. assumption.
    - simpl in NS. apply andb_true_iff in NS. destruct NS as (Hc & _).
      apply negb_true_iff in Hc. assumption. }
  rewrite F.
  assert (U : existsb (N.eqb 95) (sign ++ body) = false).
  { apply (no_underscore _ _ (fun c H => proj2 (proj2 (Q c H))) P). }
  assert (D : Py.drop_sign (sign ++ body) = body).
  { destruct body as [|c body]; [contradiction|].
    cbn [forallb] in B. apply andb_true_iff in B. destruct B as (Hc & _).
    destruct Sg as [->|[->| ->]]; try reflexivity.
    cbn [app Py.drop_sign].
    replace ((c =? 43) || (c =? 45))%N with false; [reflexivity|].
    symmetry. unfold Py.c_isdigit in Hc. n_bool. lia. }
  assert (I : Py.inf_or_nan body = false).
  { destruct body as [|b body]; [contradiction|].
    cbn [forallb] in B. apply andb_true_iff in B. destruct B as (Hb & _).
    unfold Py.inf_or_nan. cbn [map].
    replace (Py.ascii_lower b) with b.
    2:{ unfold Py.ascii_lower.
        replace ((65 <=? b) && (b <=? 90))%N with false; [reflexivity|].
        symmetry. unfold Py.c_isdigit in Hb. n_bool. lia. }
    change (str "inf") with (105%N :: str "nf").
    change (str "infinity") with (105%N :: str "nfinity").
    change (str "nan") with (110%N :: str "an").
    cbn [pystr_eqb].
    replace (b =? 105)%N with false
      by (symmetry; unfold Py.c_isdigit in Hb; n_bool; lia).
    replace (b =? 110)%N with false
      by (symmetry; unfold Py.c_isdigit in Hb; n_bool; lia).
    reflexivity. }
  destruct (sign ++ body) as [|c t] eqn:E.
  - destruct body; [contradiction|]. destruct sign; discriminate E.
  - cbv beta iota. rewrite U, D, I, orb_false_r. reflexivity.
Qed.

Lemma skip_zeros_length (s : pystr) :
  length (Py.skip_zeros s) <= length s.
Proof.
  induction s as [|c s IH]; cbn [Py.skip_zeros length]; [lia|].
  destruct (c =? 48)%N; cbn [length]; lia.
Qed.

Lemma significant_digits_le (int_part frac_part : pystr) :
  Py.significant_digits int_part frac_part
  <= length int_part + length frac_part.
Proof.
  unfold Py.significant_digits.
  pose proof (skip_zeros_length int_part).
  pose proof (skip_zeros_length frac_part).
  destruct (Py.skip_zeros int_part); cbn [length] in *; lia.
Qed.

Lemma within_max_digits (int_part frac_part : pystr) :
  (N.of_nat (length int_part + length frac_part) <= Py.max_digits)%N ->
  ((N.of_nat (Py.significant_digits int_part frac_part) <=? Py.max_digits)
   && (N.of_nat (length frac_part) <=? Py.max_digits))%N = true.
Proof.
  intros H. pose proof (significant_digits_le int_part frac_part).
  apply andb_true_iff. split; apply N.leb_le; lia.
Qed.

(** X13. The numbers the device prints are numeric: an optional sign,
    one or more ASCII digits and, if any, a point and further digits, with
    no more than 10^9 digits in all. *)
Theorem decimal_numeral_is_numeric (sign whole fraction : pystr) :
  sign = [] \/ sign = [43%N] \/ sign = [45%N] ->
  whole <> [] ->
  forallb Py.c_isdigit whole = true ->
  forallb Py.c_isdigit fraction = true ->
  (N.of_nat (length whole + length fraction) <= Py.max_digits)%N ->
  is_numeric db (sign ++ whole) = true
  /\ is_numeric db (sign ++ whole ++ 46%N :: fraction) = true.
Proof.
  intros Sg NE W F Lim. unfold is_numeric.
  assert (Dg : forall d, forallb Py.c_isdigit d = true ->
                         forallb (fun c => Py.c_isdigit c || (c =? 46)%N) d
                         = true).
  { intros d H. apply forallb_forall. intros c I.
    rewrite forallb_forall in H. rewrite (H c I). reflexivity. }
  split.
  - rewrite numeral_parses; trivial.
    + unfold Py.decimal_literal.
      rewrite <- (app_nil_r whole) at 1.
      rewrite (span_digits_app whole [] W I).
      rewrite (within_max_digits whole []) by (cbn [length]; lia).
      destruct whole; [congruence | reflexivity].
    + apply Dg. assumption.
    + destruct whole; [congruence | exact I].
  - rewrite numeral_parses; trivial.
    + unfold Py.decimal_literal.
      rewrite (span_digits_app whole (46%N :: fraction) W eq_refl).
      rewrite N.eqb_refl.
      rewrite <- (app_nil_r fraction) at 1.
      rewrite (span_digits_app fraction [] F I).
      rewrite (within_max_digits whole fraction Lim).
      destruct whole; [congruence | reflexivity].
    + rewrite forallb_app. apply andb_true_iff. split; [apply Dg, W|].
      simpl. apply Dg. assumption.
    + destruct whole; [congruence | exact I].
Qed.

End NumericFacts.

(** *** [is_numeric] and [strip] *)

Lemma lstrip_head (s r : pystr) (x : codepoint) :
  Py.lstrip s = x :: r -> Py.isspace x = false.
Proof.
  induction s as [|c s IH]; simpl; [discriminate|].
  destruct (Py.isspace c) eqn:E; [assumption|].
  intros H. injection H as -> _. assumption.
Qed.

Lemma strip_head (s r : pystr) (x : codepoint) :
  Py.strip s = x :: r -> Py.isspace x = false.
Proof.
  unfold Py.strip. destruct (Py.lstrip s) as [|y t] eqn:E; [discriminate|].
  pose proof (lstrip_head s t y E) as Y.
  rewrite (rstrip_cons_nonspace y t Y). intros H. injection H as <- _.
  assumption.
Qed.

Lemma c_rstrip_app_space (z w : pystr) :
  forallb Py.c_isspace w = true -> Py.c_rstrip (z ++ w) = Py.c_rstrip z.
Proof.
  intros W.
  assert (E : Py.c_rstrip w = []).
  { induction w as [|c w IH]; [reflexivity|].
    cbn [forallb] in W. apply andb_true_iff in W. destruct W as (Hc & Hw).
    cbn [Py.c_rstrip]. rewrite (IH Hw), Hc. reflexivity. }
  induction z as [|c z IH]; cbn [app Py.c_rstrip]; [assumption|].
  rewrite IH. reflexivity.
Qed.

Section NumericTrim.

Variable db : Py.UnicodeDB.

Let T := Py.transform_decimal_and_space db.
Let plain (c : codepoint) := negb (Py.is_control c).

Lemma to_ascii_transform (s : pystr) :
  forallb plain s = true -> Py.to_ascii db s = T s.
Proof.
  intros P. unfold Py.to_ascii.
  destruct (forallb Py.is_ascii s) eqn:A; [|reflexivity].
  subst T. induction s as [|c s IH]; [reflexivity|].
  cbn [forallb] in P, A. apply andb_true_iff in P, A.
  destruct P as (Pc & Ps), A as (Ac & As').
  cbn [Py.transform_decimal_and_space].
  replace (c <? 127)%N with true.
  - rewrite <- (IH Ps As'). reflexivity.
  - symmetry. unfold plain, Py.is_control, Py.is_ascii in *. n_bool. lia.
Qed.

Lemma transform_leading_space (a y : pystr) :
  forallb Py.isspace a = true -> forallb plain a = true ->
  Py.c_lstrip (T (a ++ y)) = Py.c_lstrip (T y).
Proof.
  subst T. induction a as [|c a IH]; [reflexivity|].
  cbn [forallb]. rewrite !andb_true_iff. intros (Sc & Sa) (Pc & Pa).
  cbn [app Py.transform_decimal_and_space].
  destruct (N.ltb_spec c 127).
  - cbn [Py.c_lstrip]. replace (Py.c_isspace c) with true; [auto|].
    symmetry. unfold plain, Py.is_control, Py.isspace, Py.c_isspace in *.
    n_bool. lia.
  - rewrite Sc. cbn [Py.c_lstrip]. change (Py.c_isspace 32%N) with true.
    cbv iota. auto.
Qed.

Lemma transform_head (x : codepoint) (y : pystr) :
  Py.isspace x = false -> plain x = true ->
  Py.c_lstrip (T (x :: y)) = T (x :: y).
Proof.
  intros Sx Px. subst T. cbn [Py.transform_decimal_and_space].
  destruct (N.ltb_spec x 127).
  - apply c_lstrip_fixed.
    unfold plain, Py.is_control, Py.isspace, Py.c_isspace in *. n_bool. lia.
  - rewrite Sx. destruct (Py.unicode_decimal db x) as [d|].
    + apply c_lstrip_fixed. unfold Py.c_isspace. n_bool. lia.
    + reflexivity.
Qed.

Lemma transform_trailing_space (u b : pystr) :
  forallb Py.isspace b = true -> forallb plain b = true ->
  exists w, T (u ++ b) = T u ++ w /\ forallb Py.c_isspace w = true.
Proof.
  intros Sb Pb. subst T. induction u as [|c u (w & E & W)].
  - cbn [app Py.transform_decimal_and_space].
    exists (Py.transform_decimal_and_space db b). split; [reflexivity|].
    induction b as [|c b IH]; [reflexivity|].
    cbn [forallb] in Sb, Pb. apply andb_true_iff in Sb, Pb.
    destruct Sb as (Sc & Sb), Pb as (Pc & Pb).
    cbn [Py.transform_decimal_and_space].
    destruct (N.ltb_spec c 127).
    + cbn [forallb]. rewrite (IH Sb Pb), andb_true_r.
      unfold plain, Py.is_control, Py.isspace, Py.c_isspace in *.
      n_bool. lia.
    + rewrite Sc. cbn [forallb]. rewrite (IH Sb Pb). reflexivity.
  - cbn [app Py.transform_decimal_and_space].
    destruct (c <? 127)%N; [exists w; rewrite E; auto|].
    destruct (Py.isspace c); [exists w; rewrite E; auto|].
    destruct (Py.unicode_decimal db c); [exists w; rewrite E; auto|].
    exists []. split; reflexivity.
Qed.

Lemma stripped_for_float (s : pystr) :
  forallb plain s = true ->
  Py.c_rstrip (Py.c_lstrip (Py.to_ascii db (Py.strip s)))
  = Py.c_rstrip (Py.c_lstrip (Py.to_ascii db s)).
Proof.
  intros P. destruct (strip_split s) as (a & b & E & A & B).
  assert (Ps : forallb plain (Py.strip s) = true).
  { apply forallb_forall. intros c I. apply strip_incl in I.
    rewrite forallb_forall in P. auto. }
  assert (Pa : forallb plain a = true /\ forallb plain b = true).
  { rewrite E, !forallb_app in P. apply andb_true_iff in P.
    destruct P as (Pa & P). apply andb_true_iff in P. tauto. }
  destruct Pa as (Pa & Pb).
  rewrite (to_ascii_transform s P), (to_ascii_transform _ Ps).
  rewrite E at 2. rewrite (transform_leading_space a _ A Pa).
  destruct (transform_trailing_space (Py.strip s) b B Pb) as (w & Ew & W).
  destruct (Py.strip s) as [|x r] eqn:S.
  - rewrite Ew. cbn [app]. subst T. cbn [Py.transform_decimal_and_space].
    cbn [app Py.c_lstrip Py.c_rstrip].
    clear Ew. induction w as [|c w IH]; [reflexivity|].
    cbn [forallb] in W. apply andb_true_iff in W. destruct W as (Wc & Ww).
    cbn [Py.c_lstrip]. rewrite Wc. auto.
  - pose proof (strip_head s r x S) as Sx.
    assert (Px : plain x = true).
    { cbn [forallb] in Ps. apply andb_true_iff in Ps. tauto. }
    cbn [app]. rewrite !(transform_head x _ Sx Px).
    cbn [app] in Ew. rewrite Ew. symmetry. apply c_rstrip_app_space.
    assumption.
Qed.

(** On a text with no control character trimming changes nothing for
    [is_numeric]: [float] strips the same white space itself. *)
Lemma is_numeric_strip (s : pystr) :
  forallb (fun c => negb (Py.is_control c)) s = true ->
  is_numeric db (Py.strip s) = is_numeric db s.
Proof.
  intros P. unfold is_numeric, Py.float_parses.
  rewrite (stripped_for_float s P). reflexivity.
Qed.

End NumericTrim.

(** *** Where the rows and the summaries come from *)

Section RowFacts.

Variable db : Py.UnicodeDB.

(** The rows of one line: the header row, or the record of this line
    under its time stamp. *)
Lemma main_step_rows (st : Session) (r : Reading) (row : list pystr) :
  In row (rows (snd (main_step db st r))) ->
  row = header_row
  \/ exists data,
       classify db (Py.strip (raw r)) = Candidate
       /\ clean_csv_line db (Py.strip (raw r)) = Some data
       /\ row = now_iso r :: data.
Proof.
  destruct (has_marker r) eqn:M.
  - destruct (header_written st) eqn:W.
    + rewrite main_step_repeated_header by assumption. intros [].
    + rewrite main_step_first_header by assumption.
      intros [<- | []]. left. reflexivity.
  - destruct (is_csv_data_line db (Py.strip (raw r))) eqn:D.
    + destruct (clean_csv_line db (Py.strip (raw r))) as [data|] eqn:C.
      * rewrite (main_step_record db st r data) by assumption.
        assert (K : classify db (Py.strip (raw r)) = Candidate)
          by (apply classify_candidate; auto).
        destruct (summary_interval <=? _)%Z; intros [<- | []];
          right; exists data; auto.
      * rewrite main_step_parse_error by assumption. intros [].
    + rewrite main_step_other by assumption.
      destruct (Py.strip (raw r)); intros [].
Qed.

Lemma main_step_summaries (st : Session) (r : Reading) (c : Z) :
  (0 <= csv_message_count st)%Z ->
  In (Summary c) (console (snd (main_step db st r))) -> (1 <= c)%Z.
Proof.
  intros P. destruct (has_marker r) eqn:M.
  - destruct (header_written st) eqn:W.
    + rewrite main_step_repeated_header by assumption. intros [].
    + rewrite main_step_first_header by assumption.
      intros [F | []]. discriminate F.
  - destruct (is_csv_data_line db (Py.strip (raw r))) eqn:D.
    + destruct (clean_csv_line db (Py.strip (raw r))) as [data|] eqn:C.
      * rewrite (main_step_record db st r data) by assumption.
        destruct (summary_interval <=? _)%Z; [|intros []].
        intros [F | []]. injection F as <-. lia.
      * rewrite main_step_parse_error by assumption.
        intros [F | []]. discriminate F.
    + rewrite main_step_other by assumption.
      destruct (Py.strip (raw r)); [intros [] | intros [F | []]].
      discriminate F.
Qed.

Lemma main_loop_rows
      (input : list Reading) (st : Session) (out : Effect)
      (row : list pystr) :
  In row (rows (snd (main_loop db st out input))) <->
  In row (rows out)
  \/ exists before r after,
       input = before ++ r :: after
       /\ In row (rows (snd (main_step db
                               (fst (main_loop db st out before)) r))).
Proof.
  revert st out. induction input as [|r more IH]; intros st out.
  - simpl. split; [auto|].
    intros [H | (b & x & a & E & _)]; [assumption|].
    destruct b; discriminate E.
  - cbn [main_loop]. destruct (main_step db st r) as [st' e] eqn:S.
    rewrite IH. cbn [rows]. rewrite in_app_iff. split.
    + intros [[H | H] | (b & x & a & E & H)].
      * left. assumption.
      * right. exists [], r, more. cbn [app main_loop fst].
        rewrite S. auto.
      * right. exists (r :: b), x, a. subst more. cbn [app main_loop].
        rewrite S. auto.
    + intros [H | (b & x & a & E & H)]; [auto|].
      destruct b as [|y b]; cbn [app] in E; injection E as E1 E2;
        subst.
      * cbn [main_loop fst] in H. rewrite S in H. auto.
      * right. exists b, x, a. cbn [main_loop] in H. rewrite S in H.
        auto.
Qed.

Lemma main_loop_summaries
      (input : list Reading) (st : Session) (out : Effect) (c : Z) :
  (0 <= csv_message_count st)%Z ->
  In (Summary c) (console (snd (main_loop db st out input))) ->
  In (Summary c) (console out) \/ (1 <= c)%Z.
Proof.
  revert st out. induction input as [|r more IH]; intros st out P.
  - simpl. auto.
  - cbn [main_loop].
    pose proof (main_step_summaries st r c P) as Hs.
    destruct (main_step_accounting db st r) as (_ & Q & _).
    specialize (Q P).
    destruct (main_step db st r) as [st' e]. cbn [fst snd] in *.
    intros H. apply (IH _ _ Q) in H. cbn [console] in H.
    rewrite in_app_iff in H. tauto.
Qed.

(** X9. Nothing is made up and nothing is dropped: a row written is the
    header row or the record of a Candidate line read, under the time
    stamp taken for that line; and every Candidate line read that yields
    a record has its row written. *)
Theorem rows_are_the_records (t0 : Z) (input : list Reading) :
  (forall row,
      In row (rows (snd (run db t0 input))) ->
      row = header_row
      \/ exists r data,
           In r input
           /\ classify db (Py.strip (raw r)) = Candidate
           /\ clean_csv_line db (Py.strip (raw r)) = Some data
           /\ row = now_iso r :: data)
  /\ (forall r data,
        In r input ->
        classify db (Py.strip (raw r)) = Candidate ->
        clean_csv_line db (Py.strip (raw r)) = Some data ->
        In (now_iso r :: data) (rows (snd (run db t0 input)))).
Proof.
  unfold run. split.
  - intros row H. apply main_loop_rows in H.
    destruct H as [[] | (b & r & a & E & H)].
    apply main_step_rows in H. destruct H as [H | (data & K & C & H)].
    + left. assumption.
    + right. exists r, data. rewrite E. split; [|auto].
      apply in_or_app. right. left. reflexivity.
  - intros r data I K C. apply in_split in I. destruct I as (b & a & ->).
    apply main_loop_rows. right. exists b, r, a. split; [reflexivity|].
    apply classify_candidate in K. destruct K as (M & D).
    rewrite (main_step_record db _ r data M D C).
    destruct (summary_interval <=? _)%Z; left; reflexivity.
Qed.

(** X10. A summary never reports zero: it is printed while a record is
    handled and counts that record. *)
Theorem summaries_count_a_record (t0 : Z) (input : list Reading) (c : Z) :
  In (Summary c) (console (snd (run db t0 input))) -> (1 <= c)%Z.
Proof.
  unfold run. intros H.
  apply main_loop_summaries in H; [|simpl; lia].
  destruct H as [[] | H]. assumption.
Qed.

(** X11. The trim of line 51 changes no count: the parts of a cleaned
    line have no control character, and on such a text [is_numeric] gives
    the same answer before and after [strip]. *)
Theorem trim_before_is_numeric_is_idle (line : pystr) :
  Forall (fun part => is_numeric db (Py.strip part) = is_numeric db part)
         (Py.split comma (clean line))
  /\ numeric_count db (Py.split comma (clean line))
     = length (filter (is_numeric db) (Py.split comma (clean line))).
Proof.
  assert (F : Forall (fun part =>
                        is_numeric db (Py.strip part) = is_numeric db part)
                     (Py.split comma (clean line))).
  { pose proof (split_parts comma (fun c => negb (Py.is_control c)) _
                  (sub_control_clean (Py.strip line))) as P.
    apply Forall_forall. intros part I. rewrite Forall_forall in P.
    apply is_numeric_strip. apply (P part I). }
  split; [assumption|]. unfold numeric_count.
  induction F as [|p ps Hp _ IH]; [reflexivity|].
  cbn [filter]. rewrite Hp. destruct (is_numeric db p); cbn [length];
    rewrite IH; reflexivity.
Qed.

End RowFacts.

(** *** A line and its cleaned text *)

Lemma isspace_not_comma (c : codepoint) :
  Py.isspace c = true -> (c =? comma)%N = false.
Proof.
  unfold Py.isspace, comma. intros H. n_bool. lia.
Qed.

Lemma lstrip_app_space (a s : pystr) :
  forallb Py.isspace a = true -> Py.lstrip (a ++ s) = Py.lstrip s.
Proof.
  induction a as [|c a IH]; [reflexivity|]. cbn [forallb app].
  rewrite andb_true_iff. intros (Hc & Ha).
  rewrite (lstrip_cons_space c _ Hc). auto.
Qed.

Lemma rstrip_app_space (s b : pystr) :
  forallb Py.isspace b = true -> Py.rstrip (s ++ b) = Py.rstrip s.
Proof.
  intros B.
  assert (E : Py.rstrip b = []).
  { induction b as [|c b IH]; [reflexivity|].
    cbn [forallb] in B. apply andb_true_iff in B. destruct B as (Hc & Hb).
    rewrite (rstrip_cons_space c b Hc), (IH Hb). reflexivity. }
  induction s as [|c s IH]; cbn [app]; [assumption|].
  cbn [Py.rstrip]. rewrite IH. reflexivity.
Qed.

Lemma strip_app_space_l (a s : pystr) :
  forallb Py.isspace a = true -> Py.strip (a ++ s) = Py.strip s.
Proof.
  intros A. unfold Py.strip. rewrite (lstrip_app_space a s A). reflexivity.
Qed.

Lemma strip_app_space_r (s b : pystr) :
  forallb Py.isspace b = true -> Py.strip (s ++ b) = Py.strip s.
Proof.
  intros B. unfold Py.strip.
  rewrite <- !lstrip_rstrip, (rstrip_app_space s b B). reflexivity.
Qed.

(** White space at the start of a text stays in its first part. *)
Lemma split_leading_space (a s : pystr) :
  forallb Py.isspace a = true ->
  map Py.strip (Py.split comma (a ++ s)) = map Py.strip (Py.split comma s).
Proof.
  intros A.
  assert (E : exists p ps, Py.split comma s = p :: ps
                           /\ Py.split comma (a ++ s) = (a ++ p) :: ps).
  { induction a as [|c a IH]; cbn [app].
    - pose proof (split_nonempty comma s) as L.
      destruct (Py.split comma s) as [|p ps]; [simpl in L; lia|].
      exists p, ps. split; reflexivity.
    - cbn [forallb] in A. apply andb_true_iff in A. destruct A as (Hc & Ha).
      destruct (IH Ha) as (p & ps & E1 & E2). exists p, ps.
      split; [assumption|]. cbn [Py.split].
      rewrite (isspace_not_comma c Hc), E2. reflexivity. }
  destruct E as (p & ps & -> & ->). cbn [map].
  rewrite (strip_app_space_l a p A). reflexivity.
Qed.

(** White space at the end of a text stays in its last part. *)
Lemma split_trailing_space (s b : pystr) :
  forallb Py.isspace b = true ->
  map Py.strip (Py.split comma (s ++ b)) = map Py.strip (Py.split comma s).
Proof.
  intros B.
  assert (Nb : forallb (fun c => negb (c =? comma)%N) b = true).
  { apply forallb_forall. intros c I. rewrite forallb_forall in B.
    rewrite (isspace_not_comma c (B c I)). reflexivity. }
  assert (E : exists init last,
             Py.split comma s = init ++ [last]
             /\ Py.split comma (s ++ b) = init ++ [last ++ b]).
  { induction s as [|c s (init & last & E1 & E2)]; cbn [app].
    - exists [], []. split; [reflexivity | apply split_no_sep, Nb].
    - cbn [Py.split]. rewrite E1, E2. destruct (c =? comma)%N.
      + exists ([] :: init), last. split; reflexivity.
      + destruct init as [|p ps].
        * exists [], (c :: last). split; reflexivity.
        * exists ((c :: p) :: ps), last. split; reflexivity. }
  destruct E as (init & last & -> & ->).
  rewrite !map_app. cbn [map]. rewrite (strip_app_space_r last b B).
  reflexivity.
Qed.

Lemma startswith_app_space (kw x b : pystr) :
  forallb (fun c => negb (Py.isspace c)) kw = true ->
  forallb Py.isspace b = true ->
  Py.startswith kw (x ++ b) = Py.startswith kw x.
Proof.
  intros K B. revert x. induction kw as [|k kw IH]; intros x;
    [destruct x; destruct b; reflexivity|].
  cbn [forallb] in K. apply andb_true_iff in K. destruct K as (Hk & Hkw).
  apply negb_true_iff in Hk.
  destruct x as [|c x]; cbn [app Py.startswith].
  - destruct b as [|c b]; [reflexivity|].
    cbn [forallb] in B. apply andb_true_iff in B. destruct B as (Hc & _).
    destruct (N.eqb_spec k c) as [->|]; [congruence | reflexivity].
  - rewrite (IH Hkw). reflexivity.
Qed.

(** A word without white space is found in a text padded with white space
    exactly when it is found in the text. *)
Lemma contains_padded (kw a s b : pystr) :
  kw <> [] ->
  forallb (fun c => negb (Py.isspace c)) kw = true ->
  forallb Py.isspace a = true -> forallb Py.isspace b = true ->
  Py.contains kw (a ++ s ++ b) = Py.contains kw s.
Proof.
  intros NE K A B.
  assert (Lead : forall t, Py.contains kw (a ++ t) = Py.contains kw t).
  { intros t. induction a as [|c a IH]; [reflexivity|].
    cbn [forallb] in A. apply andb_true_iff in A. destruct A as (Hc & Ha).
    cbn [app Py.contains]. rewrite (IH Ha).
    destruct kw as [|k kw]; [congruence|].
    cbn [forallb] in K. apply andb_true_iff in K. destruct K as (Hk & _).
    apply negb_true_iff in Hk. cbn [Py.startswith].
    destruct (N.eqb_spec k c) as [->|]; [congruence | reflexivity]. }
  rewrite Lead. clear Lead A a.
  induction s as [|c s IH]; cbn [app].
  - assert (E : Py.contains kw b = false).
    { clear - NE K B. induction b as [|c b IH].
      - destruct kw; [congruence | reflexivity].
      - cbn [forallb] in B. apply andb_true_iff in B.
        destruct B as (Hc & Hb). cbn [Py.contains]. rewrite (IH Hb).
        destruct kw as [|k kw]; [congruence|].
        cbn [forallb] in K. apply andb_true_iff in K. destruct K as (Hk & _).
        apply negb_true_iff in Hk. cbn [Py.startswith].
        destruct (N.eqb_spec k c) as [->|]; [congruence | reflexivity]. }
    rewrite E. destruct kw; [congruence | reflexivity].
  - cbn [Py.contains]. rewrite IH.
    change (c :: s ++ b) with ((c :: s) ++ b).
    rewrite (startswith_app_space kw (c :: s) b K B). reflexivity.
Qed.

Lemma ascii_lower_space (c : codepoint) :
  Py.isspace c = true -> Py.ascii_lower c = c.
Proof.
  intros H. unfold Py.ascii_lower.
  replace ((65 <=? c) && (c <=? 90))%N with false; [reflexivity|].
  symmetry. unfold Py.isspace in H. n_bool. lia.
Qed.

Lemma noise_keywords_solid :
  forallb (fun kw => match kw with [] => false | _ => true end
                     && forallb (fun c => negb (Py.isspace c)) kw)
          noise_keywords = true.
Proof. vm_compute. reflexivity. Qed.

Section CleanedLine.

Variable db : Py.UnicodeDB.

Lemma clean_subset (line : pystr) (c : codepoint) :
  In c (clean line) -> In c line.
Proof.
  unfold clean, Py.sub_control. intros H. apply filter_In in H.
  destruct H as (H & _). apply strip_incl in H. assumption.
Qed.

Lemma clean_clean (line : pystr) :
  clean (clean line) = Py.strip (clean line).
Proof.
  unfold clean at 1. apply sub_control_fixed.
  apply forallb_forall. intros c I. apply strip_incl in I.
  pose proof (sub_control_clean (Py.strip line)) as F.
  rewrite forallb_forall in F. apply F. assumption.
Qed.

(** The parts the extractor sees are those of the cleaned text. *)
Lemma csv_parts_clean (line : pystr) :
  csv_parts (clean line) = csv_parts line.
Proof.
  unfold csv_parts. rewrite clean_clean.
  destruct (strip_split (clean line)) as (a & b & E & A & B).
  set (core := Py.strip (clean line)) in *. rewrite E.
  rewrite (split_leading_space a _ A), (split_trailing_space _ b B).
  reflexivity.
Qed.

Lemma is_csv_data_line_by_parts (x y : pystr) :
  has_noise_keyword db (clean x) = has_noise_keyword db (clean y) ->
  csv_parts x = csv_parts y ->
  is_csv_data_line db x = is_csv_data_line db y.
Proof.
  intros K P. unfold is_csv_data_line. rewrite K.
  rewrite !(numeric_count_csv_parts db), P.
  assert (L : length (Py.split comma (clean x))
              = length (Py.split comma (clean y))).
  { rewrite <- (length_map Py.strip (Py.split comma (clean x))).
    rewrite <- (length_map Py.strip (Py.split comma (clean y))).
    unfold csv_parts in P. rewrite P. reflexivity. }
  rewrite L. reflexivity.
Qed.

Lemma lower_ascii (s : pystr) :
  forallb Py.is_ascii s = true -> Py.lower db s = map Py.ascii_lower s.
Proof. intros A. unfold Py.lower. rewrite A. reflexivity. Qed.

Lemma has_noise_keyword_strip (c : pystr) :
  forallb Py.is_ascii c = true ->
  has_noise_keyword db (Py.strip c) = has_noise_keyword db c.
Proof.
  intros A.
  assert (As : forallb Py.is_ascii (Py.strip c) = true).
  { apply forallb_forall. intros x I. apply strip_incl in I.
    rewrite forallb_forall in A. auto. }
  unfold has_noise_keyword. rewrite (lower_ascii c A), (lower_ascii _ As).
  destruct (strip_split c) as (a & b & E & Sa & Sb).
  assert (Ma : forall w, forallb Py.isspace w = true ->
                         map Py.ascii_lower w = w).
  { intros w W. induction w as [|x w IH]; [reflexivity|].
    cbn [forallb] in W. apply andb_true_iff in W. destruct W as (Hx & Hw).
    cbn [map]. rewrite (ascii_lower_space x Hx), (IH Hw). reflexivity. }
  set (core := Py.strip c) in *. rewrite E.
  rewrite !map_app, (Ma a Sa), (Ma b Sb).
  pose proof noise_keywords_solid as S. rewrite forallb_forall in S.
  induction noise_keywords as [|kw kws IH]; [reflexivity|].
  cbn [existsb]. rewrite IH by (intros k I; apply S; right; assumption).
  specialize (S kw (or_introl eq_refl)).
  apply andb_true_iff in S. destruct S as (NE & Solid).
  rewrite (contains_padded kw a _ b); trivial.
  intros ->. discriminate NE.
Qed.

(** X18. Cleaning a line a second time changes nothing downstream:
    [clean_csv_line] returns the same record for a line and for its
    cleaned text, and for an ASCII line [is_csv_data_line] gives the same
    answer on both. *)
Theorem cleaned_line_same_decisions (line : pystr) :
  clean_csv_line db (clean line) = clean_csv_line db line
  /\ (forallb Py.is_ascii line = true ->
      is_csv_data_line db (clean line) = is_csv_data_line db line).
Proof.
  split.
  - unfold clean_csv_line. rewrite csv_parts_clean. reflexivity.
  - intros A. apply is_csv_data_line_by_parts; [|apply csv_parts_clean].
    rewrite clean_clean. apply has_noise_keyword_strip.
    apply forallb_forall. intros c I. apply clean_subset in I.
    rewrite forallb_forall in A. auto.
Qed.

End CleanedLine.

(** ** The facts at sample lines *)

(** Three stray tokens, one of them empty, before the frame [1 .. 21]. *)
Lemma clean_csv_line_earliest_full_run_witness :
  clean_csv_line Py.ascii_only_db line_junk3 = Some numbers_1_to_21.
Proof.
  apply (proj2 (proj2 (proj2
           (clean_csv_line_earliest_full_run Py.ascii_only_db line_junk3)))
           junk3 numbers_1_to_21).
  - right. split; [reflexivity | repeat constructor].
  - repeat constructor.
  - repeat constructor.
  - reflexivity.
Defined.

(** The frame [1 .. 21] with a trailing [extra]. *)
Lemma clean_csv_line_record_sound_witness :
  clean_csv_line Py.ascii_only_db (line_of_21 ++ str ",extra")
  = Some numbers_1_to_21
  /\ length numbers_1_to_21 = 21
  /\ Forall (fun t => is_numeric Py.ascii_only_db t = true) numbers_1_to_21.
Proof.
  split; [vm_compute; reflexivity|].
  apply (clean_csv_line_record_sound Py.ascii_only_db
           (line_of_21 ++ str ",extra") numbers_1_to_21).
  vm_compute; reflexivity.
Defined.

(** The boot message has the keyword [boot]. *)
Lemma noise_keyword_never_candidate_witness :
  In (str "boot") noise_keywords
  /\ Py.contains (str "boot") (Py.lower Py.ascii_only_db (clean boot_line))
     = true
  /\ is_csv_data_line Py.ascii_only_db boot_line = false
  /\ classify Py.ascii_only_db boot_line <> Candidate
  /\ classify Py.ascii_only_db boot_line = Noise.
Proof.
  assert (I : In (str "boot") noise_keywords) by (vm_compute; tauto).
  assert (K : Py.contains (str "boot")
                          (Py.lower Py.ascii_only_db (clean boot_line))
              = true) by (vm_compute; reflexivity).
  split; [exact I|]. split; [exact K|].
  destruct (noise_keyword_never_candidate Py.ascii_only_db boot_line
              (str "boot") I K) as (D & C & N).
  split; [exact D|]. split; [exact C|]. apply N. vm_compute; reflexivity.
Defined.

(** The scenario has the header twice; a third header changes nothing. *)
Lemma header_row_written_once_witness :
  Exists (fun r => Py.contains header_marker (raw r) = true) scenario
  /\ header_rows (rows (snd (run Py.ascii_only_db 0 scenario))) = 1
  /\ run Py.ascii_only_db 0 (scenario ++ [reading header_line 6])
     = run Py.ascii_only_db 0 scenario.
Proof.
  assert (E : Exists (fun r => Py.contains header_marker (raw r) = true)
                     scenario).
  { apply Exists_cons_tl. apply Exists_cons_hd. vm_compute; reflexivity. }
  split; [exact E|].
  destruct (header_row_written_once Py.ascii_only_db 0 scenario E) as (H & D).
  split; [exact H|]. apply D. vm_compute; reflexivity.
Defined.

(** A stray U+0001 before fifteen numbers. *)
Lemma classification_after_cleaning_witness :
  clean (1%N :: line_of_15) = clean line_of_15
  /\ is_csv_data_line Py.ascii_only_db (1%N :: line_of_15)
     = is_csv_data_line Py.ascii_only_db line_of_15
  /\ classify Py.ascii_only_db (1%N :: line_of_15)
     = classify Py.ascii_only_db line_of_15.
Proof.
  assert (E : clean (1%N :: line_of_15) = clean line_of_15)
    by (vm_compute; reflexivity).
  split; [exact E|].
  destruct (classification_after_cleaning Py.ascii_only_db
              (1%N :: line_of_15) line_of_15 E) as (D & K).
  split; [exact D|]. apply K. vm_compute; reflexivity.
Defined.

(** A record 15 units after the last summary, the fifth since then. *)
Lemma summary_after_record_only_witness :
  main_step Py.ascii_only_db
            {| header_written := true; csv_message_count := 4;
               last_summary_time := 100 |}
            (reading line_of_21 115)
  = ({| header_written := true; csv_message_count := 0;
        last_summary_time := 115 |},
     {| rows := [str "2026-01-01T00:00:00" :: numbers_1_to_21];
        console := [Summary 5] |}).
Proof.
  apply (proj1 (summary_after_record_only Py.ascii_only_db
                  {| header_written := true; csv_message_count := 4;
                     last_summary_time := 100 |}
                  (reading line_of_21 115)) numbers_1_to_21);
    vm_compute; reflexivity.
Defined.

(** Fifteen numbers pass [is_csv_data_line] and yield no record. *)
Lemma parse_error_changes_nothing_witness :
  classify Py.ascii_only_db (Py.strip (raw (reading line_of_15 7))) = Candidate
  /\ clean_csv_line Py.ascii_only_db (Py.strip (raw (reading line_of_15 7)))
     = None
  /\ main_step Py.ascii_only_db (initial 0) (reading line_of_15 7)
     = (initial 0, {| rows := []; console := [ParseError line_of_15] |}).
Proof.
  split; [vm_compute; reflexivity|]. split; [vm_compute; reflexivity|].
  apply (parse_error_changes_nothing Py.ascii_only_db (initial 0)
           (reading line_of_15 7) silent []); vm_compute; reflexivity.
Defined.

(** Fourteen numbers. *)
Lemma width_band_inclusive_witness :
  has_noise_keyword Py.ascii_only_db (clean line_of_14) = false
  /\ length (Py.split comma (clean line_of_14)) = 14
  /\ classify Py.ascii_only_db line_of_14 = Unrecognized.
Proof.
  assert (K : has_noise_keyword Py.ascii_only_db (clean line_of_14) = false)
    by (vm_compute; reflexivity).
  split; [exact K|]. split; [vm_compute; reflexivity|].
  apply (proj2 (width_band_inclusive Py.ascii_only_db line_of_14 K));
    vm_compute; reflexivity.
Defined.

(** Twelve numbers after three letters: 80% exactly. *)
Lemma numeric_threshold_80_percent_witness :
  has_noise_keyword Py.ascii_only_db (clean line_12_of_15) = false
  /\ length (Py.split comma (clean line_12_of_15)) = 15
  /\ numeric_count Py.ascii_only_db (Py.split comma (clean line_12_of_15)) = 12
  /\ is_csv_data_line Py.ascii_only_db line_12_of_15 = true.
Proof.
  assert (K : has_noise_keyword Py.ascii_only_db (clean line_12_of_15) = false)
    by (vm_compute; reflexivity).
  split; [exact K|]. split; [vm_compute; reflexivity|].
  split; [vm_compute; reflexivity|].
  assert (B : 15 <= length (Py.split comma (clean line_12_of_15)) <= 25)
    by (vm_compute; split; repeat constructor).
  apply (proj1 (proj2 (proj2
           (numeric_threshold_80_percent Py.ascii_only_db line_12_of_15 K B)))).
  vm_compute; reflexivity.
Defined.

(** Fifteen numbers again: fewer than 21 parts. *)
Lemma short_candidate_is_parse_error_witness :
  clean_csv_line Py.ascii_only_db line_of_15 = None
  /\ main_step Py.ascii_only_db (initial 0) (reading line_of_15 7)
     = (initial 0, {| rows := []; console := [ParseError line_of_15] |}).
Proof.
  destruct (short_candidate_is_parse_error Py.ascii_only_db) as (S & P).
  split.
  - apply S. vm_compute. repeat constructor.
  - apply (P (initial 0) (reading line_of_15 7)).
    + vm_compute; reflexivity.
    + vm_compute. split; repeat constructor.
Defined.

(** The scenario of the specification: the boot message and the garbage
    line are echoed, the header row is written once, and the frame with a
    trailing [extra] gives one data row of 21 fields. *)
Example scenario_run :
  run Py.ascii_only_db 0 scenario
  = ({| header_written := true;
        csv_message_count := 1;
        last_summary_time := 0 |},
     {| rows := [header_row; str "2026-01-01T00:00:00" :: numbers_1_to_21];
        console := [Stm32 boot_line; HeaderDetected;
                    Stm32 (str "garbage,text,line")] |}).
Proof. vm_compute. reflexivity. Qed.

(** ** More facts at sample inputs *)

(** Three spaces before the line end. *)
Lemma blank_line_skipped_witness :
  forallb Py.isspace (raw blank_reading) = true
  /\ main_step Py.ascii_only_db (initial 0) blank_reading
     = (initial 0, silent).
Proof.
  assert (B : forallb Py.isspace (raw blank_reading) = true)
    by (vm_compute; reflexivity).
  split; [exact B|].
  apply (blank_line_skipped Py.ascii_only_db (initial 0) blank_reading B).
Defined.

(** The fields [1 .. 21] behind three stray tokens. *)
Lemma record_fields_clean_witness :
  clean_csv_line Py.ascii_only_db line_junk3 = Some numbers_1_to_21
  /\ Forall (fun t => t <> [] /\ plain_token t = true) numbers_1_to_21.
Proof.
  assert (C : clean_csv_line Py.ascii_only_db line_junk3
              = Some numbers_1_to_21) by (vm_compute; reflexivity).
  split; [exact C|].
  apply (record_fields_clean Py.ascii_only_db line_junk3 numbers_1_to_21 C).
Defined.

(** Three stray tokens, the frame, and two parts after it. *)
Lemma frame_between_stray_parts_witness :
  clean_csv_line Py.ascii_only_db line_junk3_extra = Some numbers_1_to_21.
Proof.
  apply (frame_between_stray_parts Py.ascii_only_db line_junk3_extra
           junk3 numbers_1_to_21 (map str ["extra"; "7"]%string)).
  - vm_compute; reflexivity.
  - repeat constructor.
  - repeat constructor.
  - vm_compute; reflexivity.
Defined.

(** 26 parts would be too many; these are 23. *)
Lemma extractable_line_is_accepted_witness :
  has_noise_keyword Py.ascii_only_db (clean (line_of_21 ++ str ",x,y"))
  = false
  /\ length (Py.split comma (clean (line_of_21 ++ str ",x,y"))) = 23
  /\ is_csv_data_line Py.ascii_only_db (line_of_21 ++ str ",x,y") = true.
Proof.
  split; [vm_compute; reflexivity|]. split; [vm_compute; reflexivity|].
  apply (extractable_line_is_accepted Py.ascii_only_db
           (line_of_21 ++ str ",x,y") numbers_1_to_21).
  - vm_compute; reflexivity.
  - vm_compute. repeat constructor.
  - vm_compute; reflexivity.
Defined.

(** The second frame of the scenario is written under its time stamp. *)
Lemma rows_are_the_records_witness :
  In (str "2026-01-01T00:00:00" :: numbers_1_to_21)
     (rows (snd (run Py.ascii_only_db 0 scenario))).
Proof.
  apply (proj2 (rows_are_the_records Py.ascii_only_db 0 scenario)
           (reading (line_of_21 ++ str ",extra") 3) numbers_1_to_21).
  - right. right. left. reflexivity.
  - vm_compute; reflexivity.
  - vm_compute; reflexivity.
Defined.

(** Records at times 1 and 40: one summary, of 2. *)
Lemma summaries_count_a_record_witness :
  In (Summary 2) (console (snd (run Py.ascii_only_db 0 two_records)))
  /\ (1 <= 2)%Z.
Proof.
  assert (I : In (Summary 2)
                 (console (snd (run Py.ascii_only_db 0 two_records))))
    by (vm_compute; left; reflexivity).
  split; [exact I|].
  apply (summaries_count_a_record Py.ascii_only_db 0 two_records 2 I).
Defined.

(** A space, a no-break space and a tab. *)
Lemma blank_is_not_numeric_witness :
  forallb Py.isspace [32%N; 160%N; 9%N] = true
  /\ is_numeric Py.ascii_only_db [32%N; 160%N; 9%N] = false.
Proof.
  assert (B : forallb Py.isspace [32%N; 160%N; 9%N] = true)
    by (vm_compute; reflexivity).
  split; [exact B|].
  apply (blank_is_not_numeric Py.ascii_only_db [32%N; 160%N; 9%N] B).
Defined.

(** [-12] and [-12.5] *)
Lemma decimal_numeral_is_numeric_witness :
  is_numeric Py.ascii_only_db (str "-12") = true
  /\ is_numeric Py.ascii_only_db (str "-12.5") = true.
Proof.
  apply (decimal_numeral_is_numeric Py.ascii_only_db
           [45%N] (str "12") (str "5")).
  - right. right. reflexivity.
  - discriminate.
  - vm_compute; reflexivity.
  - vm_compute; reflexivity.
  - vm_compute. discriminate.
Defined.

(** [QUIT] between a command and another. *)
Lemma nothing_after_quit_witness :
  ends_relay Py.ascii_only_db typed_quit = true
  /\ command_sender Py.ascii_only_db
       (typed_before ++ typed_quit :: typed_after)
     = command_sender Py.ascii_only_db (typed_before ++ [typed_quit])
  /\ waiting (command_sender Py.ascii_only_db
                (typed_before ++ typed_quit :: typed_after)) = false.
Proof.
  assert (E : ends_relay Py.ascii_only_db typed_quit = true)
    by (vm_compute; reflexivity).
  split; [exact E|].
  apply (nothing_after_quit Py.ascii_only_db typed_before typed_after
           typed_quit E).
Defined.

(** The command [f], typed with spaces around it. *)
Lemma ascii_command_sent_verbatim_witness :
  command_loop Py.ascii_only_db [Entered (str " f ") true]
  = and_then [[102%N; 13%N]] [Sent (str "f")]
             (command_loop Py.ascii_only_db []).
Proof.
  apply (ascii_command_sent_verbatim Py.ascii_only_db (str " f ") true []).
  - vm_compute; reflexivity.
  - vm_compute. discriminate.
  - vm_compute; reflexivity.
Defined.

(** What the relay does with the sample keys: [f] and [hello] are handed
    to the port, the write of [hello] fails, [quit] ends it. *)
Example relay_run :
  command_sender Py.ascii_only_db
                 (typed_before ++ typed_quit :: typed_after)
  = {| written := [[102%N; 13%N]; str "hello" ++ [13%N]];
       relay_console := [CommandBanner; Sent (str "f"); SendError;
                         SendError; Exiting];
       waiting := false |}.
Proof. vm_compute. reflexivity. Qed.

(** A control character, then a space, before fifteen numbers: the
    cleaned text keeps the space, which a second cleaning removes. *)
Lemma cleaned_line_same_decisions_witness :
  forallb Py.is_ascii (1%N :: 32%N :: line_of_15) = true
  /\ clean (1%N :: 32%N :: line_of_15) = 32%N :: line_of_15
  /\ is_csv_data_line Py.ascii_only_db (clean (1%N :: 32%N :: line_of_15))
     = is_csv_data_line Py.ascii_only_db (1%N :: 32%N :: line_of_15).
Proof.
  assert (A : forallb Py.is_ascii (1%N :: 32%N :: line_of_15) = true)
    by (vm_compute; reflexivity).
  split; [exact A|]. split; [vm_compute; reflexivity|].
  apply (proj2 (cleaned_line_same_decisions Py.ascii_only_db
                  (1%N :: 32%N :: line_of_15)) A).
Defined.

(** ** Where the code departs from the specification *)

(** C5. The header test of lines 145 and 152 reads the line before the
    control characters are removed, which lines 35 and 62 do for the other
    decisions: with U+0001 inside the marker the line is Unrecognized and
    is echoed with no header row written, while its cleaned text is a
    Header and has the header row written. *)
Lemma header_test_sees_control_characters :
  clean broken_header_line = header_marker
  /\ classify Py.ascii_only_db broken_header_line = Unrecognized
  /\ classify Py.ascii_only_db (clean broken_header_line) = Header
  /\ ~ (forall db line, classify db line = classify db (clean line))
  /\ ~ (forall db l1 l2,
          clean l1 = clean l2 -> classify db l1 = classify db l2)
  /\ main_step Py.ascii_only_db (initial 0) (reading broken_header_line 1)
     = (initial 0,
        {| rows := []; console := [Stm32 broken_header_line] |})
  /\ main_step Py.ascii_only_db (initial 0)
               (reading (clean broken_header_line) 1)
     = ({| header_written := true;
           csv_message_count := 0;
           last_summary_time := 0 |},
        {| rows := [header_row]; console := [HeaderDetected] |}).
Proof.
  split; [vm_compute; reflexivity|]. split; [vm_compute; reflexivity|].
  split; [vm_compute; reflexivity|]. split; [|split].
  - intros H. specialize (H Py.ascii_only_db broken_header_line).
    vm_compute in H. discriminate H.
  - intros H.
    specialize (H Py.ascii_only_db broken_header_line header_marker eq_refl).
    vm_compute in H. discriminate H.
  - split; vm_compute; reflexivity.
Qed.

(** C6. The 15-unit test is inside the branch of a written record: a boot
    message read 20 units after the last summary prints no summary; and
    when records come at times 1 and 40, two windows after time 0 have
    gone by ([0,15) with one record, [15,30) with none), and the loop
    prints the single summary [Summary 2]. *)
Lemma summary_not_after_every_line :
  ~ (forall db st r,
        Py.strip (raw r) <> [] ->
        (15 <= current_time r - last_summary_time st)%Z ->
        exists c, In (Summary c) (console (snd (main_step db st r)))
                  /\ csv_message_count (fst (main_step db st r)) = 0%Z
                  /\ last_summary_time (fst (main_step db st r))
                     = current_time r)
  /\ main_step Py.ascii_only_db (initial 0) (reading boot_line 20)
     = (initial 0, {| rows := []; console := [Stm32 boot_line] |})
  /\ console (snd (run Py.ascii_only_db 0
                       [reading line_of_21 1; reading line_of_21 40]))
     = [Summary 2].
Proof.
  split; [|split; vm_compute; reflexivity].
  intros H.
  destruct (H Py.ascii_only_db (initial 0) (reading boot_line 20))
    as (c & I & _).
  - vm_compute. discriminate.
  - vm_compute. discriminate.
  - vm_compute in I. destruct I as [I|[]]. discriminate I.
Qed.
